(** * pilosa/client.py: response model, URI, Cluster and Client

    A shallow embedding of [src/pilosa/client.py].  Python values that come
    out of [response.json()] are modelled by the type [json]; Python
    exceptions by the type [exn]; a call that may raise returns a [result].
    Python integers are unbounded and are modelled by [Z].  Where Python 2
    and Python 3 differ the embedding follows Python 3: there is one kind
    of integer, [int] converts at most 4300 digits, and a class with
    [__eq__] and no [__hash__] has no hash. *)

From Stdlib Require Import ZArith List String Ascii Bool Lia.
From Stdlib Require Import Floats DecimalString DecimalZ DecimalPos.
Import ListNotations.

Local Open Scope string_scope.
Local Open Scope Z_scope.

(** ** Python values and exceptions *)

(** The values [json.loads] produces.  A dict is kept as the list of its
    items in document order; the parser leaves one item per key. *)
#[warnings="-register-all"]
Inductive json : Type :=
| JNull
| JBool (b : bool)
| JInt (n : Z)
| JFloat (f : float)
| JStr (s : string)
| JList (xs : list json)
| JDict (kvs : list (string * json)).

(** The exception classes the module raises or lets through.  [PilosaError]
    keeps the argument tuple it was built with.  [RequestException] stands
    for the exceptions of [requests] other than [ConnectionError].  [DatabaseExistsError] and
    [FrameExistsError] are imported from [pilosa.exceptions]; they are two
    different classes, neither derived from the other. *)
Inductive exn : Type :=
| PilosaError (args : list json)
| PilosaNotAvailable (msg : string)
| PilosaURIError (msg : string)
| DatabaseExistsError
| FrameExistsError
| KeyError (key : string)
| TypeError
| AttributeError
| IndexError
| RequestException (msg : string)
| ValueError.

Inductive result (A : Type) : Type :=
| Ok (a : A)
| Raise (e : exn).
Arguments Ok {A} a.
Arguments Raise {A} e.

Definition rbind {A B} (r : result A) (f : A -> result B) : result B :=
  match r with
  | Ok a => f a
  | Raise e => Raise e
  end.

Declare Scope result_scope.
Delimit Scope result_scope with result.
Notation "x <- r ;; k" := (rbind r (fun x => k))
  (at level 61, r at next level, right associativity) : result_scope.

(** [[f(x) for x in xs]]: the first exception ends the comprehension. *)
Fixpoint mapR {A B} (f : A -> result B) (xs : list A) : result (list B) :=
  match xs with
  | [] => Ok []
  | x :: xs' =>
      (y <- f x ;;
       ys <- mapR f xs' ;;
       Ok (y :: ys))%result
  end.

(** Truth value of a Python object, as [or] and [if] test it. *)
Definition truthy (v : json) : bool :=
  match v with
  | JNull => false
  | JBool b => b
  | JInt n => negb (n =? 0)
  | JFloat f => negb (PrimFloat.eqb f 0%float)
  | JStr s => negb (String.eqb s "")
  | JList xs => match xs with [] => false | _ => true end
  | JDict kvs => match kvs with [] => false | _ => true end
  end.

(** [a or b] *)
Definition py_or (a b : json) : json := if truthy a then a else b.

Fixpoint dict_lookup (kvs : list (string * json)) (k : string) : option json :=
  match kvs with
  | [] => None
  | (k', v) :: rest => if String.eqb k' k then Some v else dict_lookup rest k
  end.

(** [d.get(k, default)]; only a dict has [get]. *)
Definition py_get (d : json) (k : string) (default : json) : result json :=
  match d with
  | JDict kvs =>
      match dict_lookup kvs k with
      | Some v => Ok v
      | None => Ok default
      end
  | _ => Raise AttributeError
  end.

(** [d[k]] for a string key [k]. *)
Definition py_getitem (d : json) (k : string) : result json :=
  match d with
  | JDict kvs =>
      match dict_lookup kvs k with
      | Some v => Ok v
      | None => Raise (KeyError k)
      end
  | _ => Raise TypeError
  end.

Fixpoint chars (s : string) : list json :=
  match s with
  | EmptyString => []
  | String c s' => JStr (String c EmptyString) :: chars s'
  end.

(** The items a [for] loop sees. *)
Definition py_iter (v : json) : result (list json) :=
  match v with
  | JList xs => Ok xs
  | JStr s => Ok (chars s)
  | JDict kvs => Ok (map (fun kv => JStr (fst kv)) kvs)
  | _ => Raise TypeError
  end.

(** ** Response model *)

Module BitmapResult.
Record t : Type := mk { bits : json; attributes : json }.

(** [__init__(self, bits=None, attributes=None)] *)
Definition __init__ (bits attributes : json) : t :=
  {| bits := py_or bits (JList []);
     attributes := py_or attributes (JDict []) |}.

Definition from_dict (d : json) : result t :=
  match d with
  | JNull => Ok (__init__ JNull JNull)
  | _ =>
      (b <- py_get d "bits" JNull ;;
       a <- py_get d "attrs" JNull ;;
       Ok (__init__ b a))%result
  end.
End BitmapResult.

Module CountResultItem.
Record t : Type := mk { id : json; count : json }.

Definition from_dict (d : json) : result t :=
  (i <- py_getitem d "id" ;;
   c <- py_getitem d "count" ;;
   Ok (mk i c))%result.
End CountResultItem.

Module QueryResult.
Record t : Type := mk {
  bitmap : BitmapResult.t;
  count_items : list CountResultItem.t;
  count : json }.

(** [__init__(self, bitmap=None, count_items=None, count=0)]; an argument
    left out is [None]. *)
Definition __init__ (bitmap : option BitmapResult.t)
    (count_items : option (list CountResultItem.t)) (count : json) : t :=
  {| bitmap :=
       match bitmap with
       | Some b => b
       | None => BitmapResult.__init__ JNull JNull
       end;
     count_items :=
       match count_items with
       | Some (c :: cs) => c :: cs
       | _ => []
       end;
     count := count |}.

(** [isinstance(item, int)] holds for ints and for bools. *)
Definition from_item (item : json) : result t :=
  let result := __init__ None None (JInt 0) in
  match item with
  | JDict _ =>
      (b <- BitmapResult.from_dict item ;;
       Ok (mk b (count_items result) (count result)))%result
  | JList xs =>
      (cs <- mapR CountResultItem.from_dict xs ;;
       Ok (mk (bitmap result) cs (count result)))%result
  | JInt _ | JBool _ =>
      Ok (mk (bitmap result) (count_items result) item)
  | _ => Ok result
  end.
End QueryResult.

Module ProfileItem.
Record t : Type := mk { id : json; attributes : json }.

Definition from_dict (d : json) : result t :=
  (i <- py_getitem d "id" ;;
   a <- py_getitem d "attrs" ;;
   Ok (mk i a))%result.
End ProfileItem.

Module QueryResponse.
Record t : Type := mk {
  results : list QueryResult.t;
  profiles : list ProfileItem.t;
  error_message : json }.

Definition from_dict (d : json) : result t :=
  (rs <- py_get d "results" (JList []) ;;
   rs <- py_iter rs ;;
   results <- mapR QueryResult.from_item rs ;;
   ps <- py_get d "profiles" (JList []) ;;
   ps <- py_iter ps ;;
   profiles <- mapR ProfileItem.from_dict ps ;;
   e <- py_get d "error" (JStr "") ;;
   Ok (mk results profiles e))%result.

(** The [result] property: first result or [None]. *)
Definition result (r : t) : option QueryResult.t :=
  match results r with
  | [] => None
  | x :: _ => Some x
  end.

(** The [profile] property: first profile or [None]. *)
Definition profile (r : t) : option ProfileItem.t :=
  match profiles r with
  | [] => None
  | x :: _ => Some x
  end.
End QueryResponse.

(** ** Regular expressions, as [re.search] runs them

    The fragment of [re] syntax that [URI.__PATTERN] uses.  [match_re] is a
    backtracking matcher in continuation-passing style: [k] is what remains
    to be matched, and a greedy operator first tries the longer match and
    falls back when [k] fails.  [pos] is the offset of [s] in the subject. *)

Inductive regex : Type :=
| Bol                               (* ^ *)
| Eol                               (* $ *)
| Lit (text : string)               (* literal characters *)
| Plus (cls : ascii -> bool)        (* [...]+ *)
| Seq (r1 r2 : regex)
| Opt (r : regex)                   (* (...)? *)
| Group (n : nat) (r : regex).      (* capturing group number n *)

Definition captures : Type := nat -> option string.

Definition no_captures : captures := fun _ => None.

Definition set_group (n : nat) (text : string) (caps : captures) : captures :=
  fun i => if Nat.eqb i n then Some text else caps i.

Definition cont : Type := nat -> string -> captures -> option captures.

Fixpoint strip_prefix (p s : string) : option string :=
  match p, s with
  | EmptyString, _ => Some s
  | String a p', String b s' => if Ascii.eqb a b then strip_prefix p' s' else None
  | String _ _, EmptyString => None
  end.

(** [[...]*], greedy. *)
Fixpoint star_match (cls : ascii -> bool) (pos : nat) (s : string)
    (caps : captures) (k : cont) : option captures :=
  match s with
  | String c s' =>
      if cls c then
        match star_match cls (S pos) s' caps k with
        | Some m => Some m
        | None => k pos s caps
        end
      else k pos s caps
  | EmptyString => k pos s caps
  end.

Definition plus_match (cls : ascii -> bool) (pos : nat) (s : string)
    (caps : captures) (k : cont) : option captures :=
  match s with
  | String c s' => if cls c then star_match cls (S pos) s' caps k else None
  | EmptyString => None
  end.

Fixpoint match_re (r : regex) (pos : nat) (s : string) (caps : captures)
    (k : cont) : option captures :=
  match r with
  | Bol => if Nat.eqb pos 0 then k pos s caps else None
  | Eol =>
      (* end of the string, or just before a newline that ends it *)
      if String.eqb s "" || String.eqb s (String "010" "")
      then k pos s caps else None
  | Lit text =>
      match strip_prefix text s with
      | Some s' => k (pos + String.length text)%nat s' caps
      | None => None
      end
  | Plus cls => plus_match cls pos s caps k
  | Seq r1 r2 =>
      match_re r1 pos s caps (fun pos' s' caps' => match_re r2 pos' s' caps' k)
  | Opt r' =>
      match match_re r' pos s caps k with
      | Some m => Some m
      | None => k pos s caps
      end
  | Group n r' =>
      match_re r' pos s caps
        (fun pos' s' caps' =>
           k pos' s' (set_group n (substring 0 (pos' - pos) s) caps'))
  end.

(** The continuation of [search]: nothing is left to match. *)
Definition done : cont := fun _ _ caps => Some caps.

(** [pattern.search(s)]: the first offset at which the pattern matches. *)
Fixpoint search_from (r : regex) (pos : nat) (s : string) : option captures :=
  match match_re r pos s no_captures done with
  | Some m => Some m
  | None =>
      match s with
      | String _ s' => search_from r (S pos) s'
      | EmptyString => None
      end
  end.

Definition search (r : regex) (s : string) : option captures :=
  search_from r 0 s.

Definition in_range (lo hi c : ascii) : bool :=
  (nat_of_ascii lo <=? nat_of_ascii c)%nat && (nat_of_ascii c <=? nat_of_ascii hi)%nat.

(** [[+a-z]] *)
Definition scheme_char (c : ascii) : bool :=
  Ascii.eqb c "+" || in_range "a" "z" c.

(** [[0-9a-z.-]] *)
Definition host_char (c : ascii) : bool :=
  in_range "0" "9" c || in_range "a" "z" c || Ascii.eqb c "." || Ascii.eqb c "-".

(** [[0-9]] *)
Definition digit_char (c : ascii) : bool := in_range "0" "9" c.

(** ** Integers and text *)

(** [str(n)] and [%s] of an integer. *)
Definition py_str (n : Z) : string := NilZero.string_of_int (Z.to_int n).

(** The longest string of digits that [int] converts:
    [sys.get_int_max_str_digits()]. *)
Definition int_max_str_digits : nat := 4300.
Arguments int_max_str_digits : simpl never.

(** [int(s)] on a string of decimal digits, which is what the pattern's
    group 5 holds.  A string of more than [int_max_str_digits] digits,
    leading zeros counted, is refused with [ValueError]; anything that is
    not a string of digits is answered with [ValueError] too. *)
Definition py_int (s : string) : result Z :=
  match s with
  | EmptyString => Raise ValueError
  | _ =>
      if (int_max_str_digits <? String.length s)%nat then Raise ValueError
      else
        match NilEmpty.uint_of_string s with
        | Some d => Ok (Z.of_uint d)
        | None => Raise ValueError
        end
  end.

(** [s.index(c)]: offset of the first [c], [ValueError] when there is none. *)
Fixpoint str_index (s : string) (c : ascii) : result nat :=
  match s with
  | EmptyString => Raise ValueError
  | String a s' =>
      if Ascii.eqb a c then Ok 0%nat
      else (i <- str_index s' c ;; Ok (S i))%result
  end.

(** ** URI *)

Module URI.
Record t : Type := mk { scheme : string; host : string; port : Z }.

(** [^(([+a-z]+)://)?([0-9a-z.-]+)?(:([0-9]+))?$] *)
Definition __PATTERN : regex :=
  Seq Bol
    (Seq (Opt (Group 1 (Seq (Group 2 (Plus scheme_char)) (Lit "://"))))
       (Seq (Opt (Group 3 (Plus host_char)))
          (Seq (Opt (Group 4 (Seq (Lit ":") (Group 5 (Plus digit_char)))))
             Eol))).

(** [URI()] *)
Definition init : t := {| scheme := "http"; host := "localhost"; port := 10101 |}.

Definition normalize (self : t) : string :=
  let scheme :=
    match str_index (scheme self) "+" with
    | Ok index => substring 0 index (scheme self)
    | Raise _ => scheme self
    end in
  scheme ++ "://" ++ host self ++ ":" ++ py_str (port self).

(** A group that did not take part is [None]; [if g:] also skips [""]. *)
Definition present (g : option string) : option string :=
  match g with
  | Some text => if String.eqb text "" then None else Some text
  | None => None
  end.

Definition _parse (self : t) (address : string) : result t :=
  match search __PATTERN address with
  | Some m =>
      let self :=
        match present (m 2%nat) with
        | Some scheme => mk scheme (host self) (port self)
        | None => self
        end in
      let self :=
        match present (m 3%nat) with
        | Some host => mk (scheme self) host (port self)
        | None => self
        end in
      match present (m 5%nat) with
      | Some port => (p <- py_int port ;; Ok (mk (scheme self) (host self) p))%result
      | None => Ok self
      end
  | None => Raise (PilosaURIError "Not a Pilosa URI")
  end.

Definition address (address : string) : result t := _parse init address.

Definition __str__ (self : t) : string :=
  scheme self ++ "://" ++ host self ++ ":" ++ py_str (port self).

(** [other] is a [URI] here, so the [isinstance] test passes. *)
Definition __eq__ (self other : t) : bool :=
  String.eqb (scheme self) (scheme other) &&
  String.eqb (host self) (host other) &&
  (port self =? port other).


End URI.

(** ** Cluster *)

(** [l.remove(x)]: drops the first item equal to [x]; [ValueError] when no
    item is. *)
Fixpoint list_remove (x : URI.t) (l : list URI.t) : result (list URI.t) :=
  match l with
  | [] => Raise ValueError
  | y :: l' =>
      if URI.__eq__ y x then Ok l'
      else (r <- list_remove x l' ;; Ok (y :: r))%result
  end.

Module Cluster.
(** [__next_index] starts at 0 and is only ever assigned a remainder, so
    it is a natural number. *)
Record t : Type := mk { hosts : list URI.t; __next_index : nat }.

(** [Cluster(...)], with the hosts given *)
Definition __init__ (hosts : list URI.t) : t :=
  {| hosts := hosts; __next_index := 0 |}.

Definition add_host (self : t) (uri : URI.t) : t :=
  mk (hosts self ++ [uri])%list (__next_index self).

Definition remove_host (self : t) (uri : URI.t) : result t :=
  (hs <- list_remove uri (hosts self) ;; Ok (mk hs (__next_index self)))%result.

(** Returns the host and the cluster as the call leaves it. *)
Definition get_host (self : t) : result (URI.t * t) :=
  if (List.length (hosts self) =? 0)%nat then
    Raise (PilosaError [JStr "There are no available hosts"])
  else
    match nth_error (hosts self) (__next_index self mod List.length (hosts self)) with
    | Some next_host =>
        Ok (next_host,
            mk (hosts self) ((__next_index self + 1) mod List.length (hosts self)))
    | None => Raise IndexError
    end.
End Cluster.

(** ** What the client is handed by its collaborators *)

(** The schema and query objects of [pilosa.orm], as far as the client
    reads them. *)
Module Database.
Record t : Type := mk { name : string; column_label : string }.
End Database.

Module Frame.
Record t : Type := mk { database : Database.t; name : string; row_label : string }.
End Frame.

Module Query.
(** [text] is [str(query)]. *)
Record t : Type := mk { database : Database.t; text : string }.
End Query.

Inductive http_method : Type := post | delete.

Record request : Type := mk_request {
  req_method : http_method;
  req_url : string;
  req_data : option string;
  req_headers : list (string * string) }.

(** A [requests] response: [json_body] is what [.json()] returns, [None]
    when the body is not JSON; [text] also stands for [content]. *)
Record response : Type := mk_response {
  status_code : Z;
  text : string;
  json_body : option json }.

(** How a call of [requests.post] or [requests.delete] ends: with a
    response, with [ConnectionError], or with another exception of
    [requests], which the client does not catch.  [message] is the text of
    the attribute [message] of the [ConnectionError], [None] when the
    exception has no such attribute, as it is on Python 3. *)
Inductive outcome : Type :=
| Answered (r : response)
| ConnectionError (message : option string)
| OtherFailure (message : string).

(** The newline character, as text. *)
Definition nl : string := String "010" "".

(** [s] between two double quote characters, as the format strings of the
    request bodies write it. *)
Definition quoted (s : string) : string :=
  String "034" (s ++ String "034" "").

(** ** Client *)

Module Client.
Definition __NO_RESPONSE : Z := 0.
Definition __RAW_RESPONSE : Z := 1.
Definition __ERROR_CHECKED_RESPONSE : Z := 2.

(** [cluster] is the state of the cluster object the client refers to; no
    one else changes that object while the client works. *)
Record t : Type := mk { cluster : Cluster.t; __current_host : URI.t }.

(** [__RECOGNIZED_ERRORS.get(text)] *)
Definition __RECOGNIZED_ERRORS (text : string) : option exn :=
  if String.eqb text ("database already exists" ++ nl) then
    Some DatabaseExistsError
  else if String.eqb text ("frame already exists" ++ nl) then
    Some FrameExistsError
  else None.

(** [__init__(self, cluster=None)] *)
Definition __init__ (cluster : option Cluster.t) : result t :=
  let cluster :=
    match cluster with
    | Some c => c
    | None => Cluster.__init__ [URI.init]
    end in
  (hc <- Cluster.get_host cluster ;;
   Ok (mk (snd hc) (fst hc)))%result.

Section Transport.
(** [version] is [get_version()].  [respond] stands for the [requests]
    library and the servers behind it: it gives the outcome of a
    request from the requests sent so far and the request itself. *)
Variable version : string.
Variable respond : list request -> request -> outcome.

Definition __HEADERS : list (string * string) :=
  [("Accept", "application/vnd.pilosa.json.v1");
   ("Content-Type", "application/vnd.pilosa.pql.v1");
   ("User-Agent", "pilosa-driver/" ++ version)].

(** A method leaves a value or an exception, the client as it now is,
    and the requests sent so far. *)
Definition run (A : Type) : Type := (result A * t * list request)%type.

Definition __http_request (self : t) (wire : list request)
    (method : http_method) (path : string) (data : option string)
    (client_response : Z) : run (option response) :=
  match Cluster.get_host (cluster self) with
  | Raise e => (Raise e, self, wire)
  | Ok (uri, c) =>
      let self := mk c (__current_host self) in
      let req := mk_request method (URI.normalize uri ++ path) data __HEADERS in
      match respond wire req with
      | ConnectionError message =>
          match Cluster.remove_host (cluster self) (__current_host self) with
          | Ok c' =>
              (* [str(e.message)] is evaluated before the raise *)
              (match message with
               | Some text => Raise (PilosaNotAvailable text)
               | None => Raise AttributeError
               end,
               mk c' (__current_host self), (wire ++ [req])%list)
          | Raise e => (Raise e, self, (wire ++ [req])%list)
          end
      | OtherFailure message =>
          (Raise (RequestException message), self, (wire ++ [req])%list)
      | Answered response =>
          if client_response =? __RAW_RESPONSE then
            (Ok (Some response), self, (wire ++ [req])%list)
          else if (200 <=? status_code response) && (status_code response <? 300) then
            (Ok (if client_response =? __NO_RESPONSE then None else Some response),
             self, (wire ++ [req])%list)
          else
            match __RECOGNIZED_ERRORS (text response) with
            | Some ex => (Raise ex, self, (wire ++ [req])%list)
            | None =>
                (Raise (PilosaError [JStr "Server error (%d): %s";
                                     JInt (status_code response);
                                     JStr (text response)]),
                 self, (wire ++ [req])%list)
            end
      end
  end.

(** [x in response] and [response[k]] on what [.json()] gave. *)
Definition py_contains (k : string) (v : json) : result bool :=
  match v with
  | JDict kvs =>
      Ok (match dict_lookup kvs k with Some _ => true | None => false end)
  | JList xs =>
      Ok (existsb (fun x => match x with JStr s => String.eqb s k | _ => false end) xs)
  | JStr s =>
      Ok (match String.index 0 k s with Some _ => true | None => false end)
  | _ => Raise TypeError
  end.

Definition query (self : t) (wire : list request) (query : Query.t)
    (profiles : bool) : run QueryResponse.t :=
  let profiles_arg := if profiles then "&profiles=true" else "" in
  let path := "/query?db=" ++ Database.name (Query.database query) ++ profiles_arg in
  match __http_request self wire post path (Some (Query.text query)) __RAW_RESPONSE with
  | (Raise e, self, wire) => (Raise e, self, wire)
  | (Ok None, self, wire) => (Raise AttributeError, self, wire)
  | (Ok (Some r), self, wire) =>
      match json_body r with
      | None => (Raise ValueError, self, wire)
      | Some response =>
          ((has_error <- py_contains "error" response ;;
            if has_error : bool then
              (e <- py_getitem response "error" ;; Raise (PilosaError [e]))
            else QueryResponse.from_dict response)%result,
           self, wire)
      end
  end.

(** A call as a statement: what it returns is dropped. *)
Definition ignore (r : run (option response)) : run unit :=
  match r with
  | (Ok _, self, wire) => (Ok tt, self, wire)
  | (Raise e, self, wire) => (Raise e, self, wire)
  end.

Definition __create_or_delete_database (self : t) (wire : list request)
    (method : http_method) (database : Database.t) : run unit :=
  let data :=
    "{" ++ quoted "db" ++ ": " ++ quoted (Database.name database) ++
    ", " ++ quoted "options" ++ ": {" ++ quoted "columnLabel" ++ ": " ++
    quoted (Database.column_label database) ++ "}}" in
  ignore (__http_request self wire method "/db" (Some data) __NO_RESPONSE).

Definition __create_or_delete_frame (self : t) (wire : list request)
    (method : http_method) (frame : Frame.t) : run unit :=
  let data :=
    "{" ++ quoted "db" ++ ": " ++ quoted (Database.name (Frame.database frame)) ++
    ", " ++ quoted "frame" ++ ": " ++ quoted (Frame.name frame) ++
    ", " ++ quoted "options" ++ ": {" ++ quoted "rowLabel" ++ ": " ++
    quoted (Frame.row_label frame) ++ "}}" in
  ignore (__http_request self wire method "/frame" (Some data) __NO_RESPONSE).

Definition create_database self wire database : run unit :=
  __create_or_delete_database self wire post database.

Definition delete_database self wire database : run unit :=
  __create_or_delete_database self wire delete database.

Definition create_frame self wire frame : run unit :=
  __create_or_delete_frame self wire post frame.

Definition delete_frame self wire frame : run unit :=
  __create_or_delete_frame self wire delete frame.

Definition ensure_database self wire database : run unit :=
  match create_database self wire database with
  | (Raise DatabaseExistsError, self, wire) => (Ok tt, self, wire)
  | r => r
  end.

Definition ensure_frame self wire frame : run unit :=
  match create_frame self wire frame with
  | (Raise FrameExistsError, self, wire) => (Ok tt, self, wire)
  | r => r
  end.
End Transport.
End Client.

(** ** The address grammar *)

Fixpoint string_all (cls : ascii -> bool) (s : string) : bool :=
  match s with
  | EmptyString => true
  | String c s' => cls c && string_all cls s'
  end.

(** [s] does not go on with a character of the class. *)
Definition stops (cls : ascii -> bool) (s : string) : bool :=
  match s with
  | EmptyString => true
  | String c _ => negb (cls c)
  end.

(** The URIs the grammar [[[scheme://]host][:port]] can produce: a scheme in
    [[+a-z]+], a host in [[0-9a-z.-]+] and a port that a string of digits
    which [int] converts denotes, so a port of at most
    [int_max_str_digits] digits. *)
Definition in_grammar (u : URI.t) : Prop :=
  URI.scheme u <> "" /\ string_all scheme_char (URI.scheme u) = true /\
  URI.host u <> "" /\ string_all host_char (URI.host u) = true /\
  0 <= URI.port u /\
  (String.length (py_str (URI.port u)) <= int_max_str_digits)%nat.

(** What the groups 2, 3 and 5 of [URI.__PATTERN] can hold. *)
Definition captures_ok (caps : captures) : Prop :=
  (forall t, caps 2%nat = Some t -> string_all scheme_char t = true) /\
  (forall t, caps 3%nat = Some t -> string_all host_char t = true) /\
  (forall t, caps 5%nat = Some t -> string_all digit_char t = true).

(** ** Well-formed response envelopes *)

(** An element of an array-shaped result: it has [id] and [count]. *)
Definition count_item_ok (x : json) : Prop :=
  exists i c, py_getitem x "id" = Ok i /\ py_getitem x "count" = Ok c.

Definition result_item_ok (r : json) : Prop :=
  match r with
  | JList xs => Forall count_item_ok xs
  | _ => True
  end.

(** An element of [profiles]: it has [id] and [attrs]. *)
Definition profile_ok (p : json) : Prop :=
  exists i a, py_getitem p "id" = Ok i /\ py_getitem p "attrs" = Ok a.

(** [results] and [profiles], where present, are arrays of such elements. *)
Definition envelope_ok (kvs : list (string * json)) : Prop :=
  (exists rs, py_get (JDict kvs) "results" (JList []) = Ok (JList rs) /\
              Forall result_item_ok rs) /\
  (exists ps, py_get (JDict kvs) "profiles" (JList []) = Ok (JList ps) /\
              Forall profile_ok ps).

(** ** Servers for the examples *)

(** Every request is answered with [r]. *)
Definition answers (r : response) : list request -> request -> outcome :=
  fun _ _ => Answered r.

(** No request gets through: every call ends in a [ConnectionError], whose
    attribute [message], if it has one, holds [message]. *)
Definition refuses (message : option string) : list request -> request -> outcome :=
  fun _ _ => ConnectionError message.

Definition same_body (a b : request) : bool :=
  match req_data a, req_data b with
  | Some x, Some y => String.eqb x y
  | None, None => true
  | _, _ => false
  end.

(** A server that keeps what it was asked to create: a body it sees for
    the first time is answered with 200, a body it has seen before with the
    conflict message of the database. *)
Definition creates_once : list request -> request -> outcome :=
  fun wire req =>
    if existsb (same_body req) wire then
      Answered (mk_response 409 ("database already exists" ++ nl) None)
    else Answered (mk_response 200 "" None).

(** The client that [Client()] builds: one host, the default URI. *)
Definition example_client : Client.t :=
  Client.mk (Cluster.mk [URI.init] 0) URI.init.

Definition example_database : Database.t := Database.mk "testdb" "col_id".

Definition example_frame : Frame.t := Frame.mk example_database "test" "id".

Definition conflict_response : response :=
  mk_response 409 ("database already exists" ++ nl) None.

(** A rejected query: status 400 and an [error] key in the body. *)
Definition parse_error_response : response :=
  mk_response 400
    ("{" ++ quoted "error" ++ ": " ++ quoted "parse error at col_id" ++ "}")
    (Some (JDict [("error", JStr "parse error at col_id")])).

(** An answer with status 200 whose count item has no [count]. *)
Definition short_item_response : response :=
  mk_response 200
    ("{" ++ quoted "results" ++ ": [[{" ++ quoted "id" ++ ": 1}]]}")
    (Some (JDict [("results", JList [JList [JDict [("id", JInt 1)]]])])).

(** ** Calls in a row *)

(** [n] calls of [get_host], one after the other: the hosts they return, in
    order, and the cluster after the last call. *)
Fixpoint get_hosts (n : nat) (c : Cluster.t) : result (list URI.t * Cluster.t) :=
  match n with
  | O => Ok ([], c)
  | S n' =>
      (r <- Cluster.get_host c ;;
       rs <- get_hosts n' (snd r) ;;
       Ok (fst r :: fst rs, snd rs))%result
  end.

(** ** Texts of the address grammar *)

(** The text [[[scheme://]host][:port]] with the parts that are given,
    followed by [tail]. *)
Definition address_text (scheme host port : option string) (tail : string) : string :=
  let port_part :=
    match port with
    | Some digits => ":" ++ digits ++ tail
    | None => tail
    end in
  let host_part :=
    match host with
    | Some h => h ++ port_part
    | None => port_part
    end in
  match scheme with
  | Some s => s ++ "://" ++ host_part
  | None => host_part
  end.

(** A port that is given has no more digits than [int] converts. *)
Definition port_within_limit (port : option string) : Prop :=
  match port with
  | Some digits => (String.length digits <= int_max_str_digits)%nat
  | None => True
  end.

(** A part that is given is not empty and stays within its class. *)
Definition part_ok (cls : ascii -> bool) (part : option string) : Prop :=
  match part with
  | Some s => s <> "" /\ string_all cls s = true
  | None => True
  end.

(** The URI that [address] makes of the parts: a part left out keeps the
    default of [URI()]. *)
Definition address_value (scheme host port : option string) : result URI.t :=
  let scheme := match scheme with Some s => s | None => URI.scheme URI.init end in
  let host := match host with Some h => h | None => URI.host URI.init end in
  match port with
  | Some digits => (p <- py_int digits ;; Ok (URI.mk scheme host p))%result
  | None => Ok (URI.mk scheme host (URI.port URI.init))
  end.

(** Any character but the slash. *)
Definition not_slash (c : ascii) : bool := negb (Ascii.eqb c "/").

(** A client whose pool has lost its hosts. *)
Definition stranded_client : Client.t := Client.mk (Cluster.mk [] 0) URI.init.

Definition example_query : Query.t :=
  Query.mk example_database "Count(Bitmap(id=10, frame=test))".

Definition frame_conflict_response : response :=
  mk_response 409 ("frame already exists" ++ nl) None.

(** The answer to a count query. *)
Definition count_response : response :=
  mk_response 200 ("{" ++ quoted "results" ++ ": [2]}")
    (Some (JDict [("results", JList [JInt 2])])).

(** [c * n]: the character [c], [n] times. *)
Fixpoint repeat_char (c : ascii) (n : nat) : string :=
  match n with
  | O => ""
  | S n' => String c (repeat_char c n')
  end.
(** ** Decoding by shape *)

Lemma mapR_count_items (xs : list json) (items : list CountResultItem.t) :
  Forall2 (fun x it =>
             py_getitem x "id" = Ok (CountResultItem.id it) /\
             py_getitem x "count" = Ok (CountResultItem.count it)) xs items ->
  mapR CountResultItem.from_dict xs = Ok items.
Proof.
  induction 1 as [| x it xs' items' [Hid Hcount] _ IH]; simpl.
  - reflexivity.
  - unfold CountResultItem.from_dict at 1.
    rewrite Hid, Hcount; simpl. rewrite IH; simpl.
    destruct it; reflexivity.
Qed.

Lemma py_or_absent (default : json) : py_or JNull default = default.
Proof. reflexivity. Qed.

Lemma py_or_truthy (v default : json) : truthy v = true -> py_or v default = v.
Proof. intros H; unfold py_or; rewrite H; reflexivity. Qed.

(** C3. [QueryResult.from_item] classifies an element of [results] by its
    JSON shape.  An object gives a result whose bitmap is read from the
    object, with [bits = []] when the key [bits] is absent and
    [attributes = {}] when the key [attrs] is absent, and with the stored
    value when the key holds a non-empty value.  An array whose elements
    carry [id] and [count] gives exactly the [CountResultItem]s of its
    elements, in order, and nothing else.  An integer gives a result
    carrying that integer as [count], with the empty bitmap and no count
    items. *)
Theorem from_item_by_shape :
  (forall kvs : list (string * json),
      exists b : BitmapResult.t,
        QueryResult.from_item (JDict kvs) = Ok (QueryResult.mk b [] (JInt 0)) /\
        (dict_lookup kvs "bits" = None -> BitmapResult.bits b = JList []) /\
        (dict_lookup kvs "attrs" = None -> BitmapResult.attributes b = JDict []) /\
        (forall v, dict_lookup kvs "bits" = Some v -> truthy v = true ->
                   BitmapResult.bits b = v) /\
        (forall v, dict_lookup kvs "attrs" = Some v -> truthy v = true ->
                   BitmapResult.attributes b = v)) /\
  (forall (xs : list json) (items : list CountResultItem.t),
      Forall2 (fun x it =>
                 py_getitem x "id" = Ok (CountResultItem.id it) /\
                 py_getitem x "count" = Ok (CountResultItem.count it)) xs items ->
      QueryResult.from_item (JList xs) =
        Ok (QueryResult.mk (BitmapResult.mk (JList []) (JDict [])) items (JInt 0))) /\
  (forall n : Z,
      QueryResult.from_item (JInt n) =
        Ok (QueryResult.mk (BitmapResult.mk (JList []) (JDict [])) [] (JInt n))).
Proof.
  split; [| split].
  - intros kvs.
    exists (BitmapResult.__init__
              (match dict_lookup kvs "bits" with Some v => v | None => JNull end)
              (match dict_lookup kvs "attrs" with Some v => v | None => JNull end)).
    split.
    + unfold QueryResult.from_item, BitmapResult.from_dict, py_get.
      destruct (dict_lookup kvs "bits"), (dict_lookup kvs "attrs"); reflexivity.
    + repeat split; simpl.
      * intros ->. apply py_or_absent.
      * intros ->. apply py_or_absent.
      * intros v -> Hv. now apply py_or_truthy.
      * intros v -> Hv. now apply py_or_truthy.
  - intros xs items H.
    unfold QueryResult.from_item.
    rewrite (mapR_count_items xs items H). reflexivity.
  - intros n. reflexivity.
Qed.

(** The array case of [from_item_by_shape] on the TopN answer of the
    integration test: one item with id 155 and count 1. *)
Lemma from_item_by_shape_witness :
  QueryResult.from_item (JList [JDict [("id", JInt 155); ("count", JInt 1)]]) =
    Ok (QueryResult.mk (BitmapResult.mk (JList []) (JDict []))
          [CountResultItem.mk (JInt 155) (JInt 1)] (JInt 0)).
Proof.
  apply (proj1 (proj2 from_item_by_shape)).
  repeat constructor.
Defined.

(** The three envelopes of the decode examples. *)
Example decode_bitmap :
  QueryResponse.from_dict
    (JDict [("results", JList [JDict [("bits", JList [JInt 20]); ("attrs", JDict [])]])]) =
  Ok (QueryResponse.mk
        [QueryResult.mk (BitmapResult.mk (JList [JInt 20]) (JDict [])) [] (JInt 0)]
        [] (JStr "")).
Proof. reflexivity. Qed.

Example decode_count_items :
  QueryResponse.from_dict
    (JDict [("results", JList [JList [JDict [("id", JInt 155); ("count", JInt 1)]]])]) =
  Ok (QueryResponse.mk
        [QueryResult.mk (BitmapResult.mk (JList []) (JDict []))
           [CountResultItem.mk (JInt 155) (JInt 1)] (JInt 0)]
        [] (JStr "")).
Proof. reflexivity. Qed.

Example decode_count :
  QueryResponse.from_dict (JDict [("results", JList [JInt 2])]) =
  Ok (QueryResponse.mk
        [QueryResult.mk (BitmapResult.mk (JList []) (JDict [])) [] (JInt 2)]
        [] (JStr "")).
Proof. reflexivity. Qed.

(** ** URI: examples *)

Example address_examples :
  URI.address "http://localhost:10101" = Ok URI.init /\
  URI.address "http://localhost" = Ok URI.init /\
  URI.address "http://:10101" = Ok URI.init /\
  URI.address "localhost:10101" = Ok URI.init /\
  URI.address "localhost" = Ok URI.init /\
  URI.address ":10101" = Ok URI.init /\
  URI.address "" = Ok URI.init /\
  URI.address "http+tls://10.0.0.1:9999" = Ok (URI.mk "http+tls" "10.0.0.1" 9999) /\
  URI.address "foo:bar" = Raise (PilosaURIError "Not a Pilosa URI") /\
  URI.address "HTTP://x" = Raise (PilosaURIError "Not a Pilosa URI") /\
  URI.address "a://b://c" = Raise (PilosaURIError "Not a Pilosa URI") /\
  URI.address "db1.pilosa.com:007" = Ok (URI.mk "http" "db1.pilosa.com" 7).
Proof. vm_compute. repeat split. Qed.

(** ** URI: equality and normalization *)

Lemma URI_eq_spec (a b : URI.t) : URI.__eq__ a b = true <-> a = b.
Proof.
  destruct a as [s h p], b as [s' h' p']; unfold URI.__eq__; simpl.
  rewrite !andb_true_iff, !String.eqb_eq, Z.eqb_eq.
  split.
  - intros [[-> ->] ->]; reflexivity.
  - intros [= -> -> ->]; auto.
Qed.

Lemma URI_eq_false (a b : URI.t) : URI.__eq__ a b = false <-> a <> b.
Proof.
  rewrite <- URI_eq_spec. destruct (URI.__eq__ a b); split; congruence.
Qed.


Lemma str_index_error (s : string) (c : ascii) (e : exn) :
  str_index s c = Raise e -> e = ValueError.
Proof.
  revert e; induction s as [| a s IH]; simpl; intros e.
  - now intros [= <-].
  - destruct (Ascii.eqb a c); [discriminate |].
    destruct (str_index s c); simpl; [discriminate |].
    intros [= <-]. now apply IH.
Qed.

Lemma substring_prefix (a b : string) :
  substring 0 (String.length a) (a ++ b) = a.
Proof.
  induction a as [| c a IH]; simpl.
  - destruct b; reflexivity.
  - now rewrite IH.
Qed.


Lemma normalize_plain (u : URI.t) :
  str_index (URI.scheme u) "+" = Raise ValueError ->
  URI.normalize u = URI.__str__ u.
Proof. intros H. unfold URI.normalize, URI.__str__. now rewrite H. Qed.






(** ** Cluster *)

Lemma list_remove_first (u : URI.t) (l1 l2 : list URI.t) :
  ~ In u l1 -> list_remove u (l1 ++ u :: l2) = Ok (l1 ++ l2)%list.
Proof.
  induction l1 as [| y l1 IH]; simpl; intros Hn.
  - now rewrite (proj2 (URI_eq_spec u u) eq_refl).
  - rewrite (proj2 (URI_eq_false y u)) by tauto.
    rewrite IH by tauto. reflexivity.
Qed.

Lemma list_remove_absent (u : URI.t) (l : list URI.t) :
  ~ In u l -> list_remove u l = Raise ValueError.
Proof.
  induction l as [| y l IH]; simpl; intros Hn.
  - reflexivity.
  - rewrite (proj2 (URI_eq_false y u)) by tauto.
    rewrite IH by tauto. reflexivity.
Qed.

(** C8. [remove_host] deletes the first host equal to the given URI, where
    [__eq__] holds exactly of two URIs with the same scheme, host and
    port: the hosts before the first equal entry and the hosts after it
    stay, in order, and the cursor is not touched.  When no host is equal
    to the URI the call raises (the [ValueError] of [list.remove]) and
    does not return. *)
Theorem remove_host_first_match (c : Cluster.t) (u : URI.t) :
  (forall x : URI.t,
      URI.__eq__ x u = true <->
      URI.scheme x = URI.scheme u /\ URI.host x = URI.host u /\
      URI.port x = URI.port u) /\
  (forall (l1 l2 : list URI.t) (x : URI.t),
      Cluster.hosts c = (l1 ++ x :: l2)%list ->
      URI.__eq__ x u = true ->
      Forall (fun y => URI.__eq__ y u = false) l1 ->
      Cluster.remove_host c u = Ok (Cluster.mk (l1 ++ l2) (Cluster.__next_index c))) /\
  (Forall (fun y => URI.__eq__ y u = false) (Cluster.hosts c) ->
   Cluster.remove_host c u = Raise ValueError).
Proof.
  split; [| split].
  - intros x. rewrite URI_eq_spec. destruct x, u; simpl.
    split; [intros [= -> -> ->]; auto | intros (-> & -> & ->); reflexivity].
  - intros l1 l2 x Hh Hx Hl1.
    apply URI_eq_spec in Hx; subst x.
    unfold Cluster.remove_host. rewrite Hh, list_remove_first; [reflexivity |].
    intros Hin. rewrite Forall_forall in Hl1.
    specialize (Hl1 u Hin). rewrite (proj2 (URI_eq_spec u u) eq_refl) in Hl1.
    discriminate.
  - intros Hall. unfold Cluster.remove_host.
    rewrite list_remove_absent; [reflexivity |].
    intros Hin. rewrite Forall_forall in Hall.
    specialize (Hall u Hin). rewrite (proj2 (URI_eq_spec u u) eq_refl) in Hall.
    discriminate.
Qed.

(** [remove_host_first_match] on a pool with a duplicate: the first of the
    two equal entries goes. *)
Lemma remove_host_first_match_witness :
  Cluster.remove_host
    (Cluster.mk [URI.mk "http" "a" 1; URI.mk "http" "b" 2; URI.mk "http" "a" 1;
                 URI.mk "http" "b" 2] 3)
    (URI.mk "http" "b" 2) =
  Ok (Cluster.mk [URI.mk "http" "a" 1; URI.mk "http" "a" 1; URI.mk "http" "b" 2] 3).
Proof.
  apply (proj1 (proj2 (remove_host_first_match
            (Cluster.mk [URI.mk "http" "a" 1; URI.mk "http" "b" 2; URI.mk "http" "a" 1;
                         URI.mk "http" "b" 2] 3)
            (URI.mk "http" "b" 2)))
           [URI.mk "http" "a" 1] [URI.mk "http" "a" 1; URI.mk "http" "b" 2]
           (URI.mk "http" "b" 2)).
  - reflexivity.
  - reflexivity.
  - repeat constructor.
Defined.

Lemma nth_error_in_range {A} (l : list A) (i : nat) :
  (i < List.length l)%nat -> exists x, nth_error l i = Some x.
Proof.
  intros H. destruct (nth_error l i) eqn:E; [eauto |].
  apply nth_error_None in E. lia.
Qed.

Lemma get_host_nonempty (c : Cluster.t) :
  Cluster.hosts c <> [] ->
  exists h : URI.t,
    nth_error (Cluster.hosts c)
      (Cluster.__next_index c mod List.length (Cluster.hosts c)) = Some h /\
    Cluster.get_host c =
      Ok (h, Cluster.mk (Cluster.hosts c)
               ((Cluster.__next_index c + 1) mod List.length (Cluster.hosts c))).
Proof.
  destruct c as [hs i]; simpl; intros Hne.
  destruct (nth_error_in_range hs (i mod List.length hs)) as [h Hh].
  { apply Nat.mod_upper_bound. destruct hs; simpl; [congruence | lia]. }
  exists h. split; [exact Hh |].
  unfold Cluster.get_host; simpl.
  destruct hs as [| x hs']; [congruence |].
  simpl List.length in *. simpl Nat.eqb. cbv iota. rewrite Hh. reflexivity.
Qed.

(** C4. On a pool that is not empty [get_host] returns the host at index
    [next_index mod len(hosts)] and leaves the cursor at
    [(next_index + 1) mod len(hosts)]; the hosts are not changed.  Over a
    new pool [[A, B, C]] four calls in a row return [A], [B], [C], [A].
    On an empty pool the call raises the error [There are no available
    hosts]. *)
Theorem get_host_round_robin :
  (forall c : Cluster.t,
      Cluster.hosts c <> [] ->
      exists h : URI.t,
        nth_error (Cluster.hosts c)
          (Cluster.__next_index c mod List.length (Cluster.hosts c)) = Some h /\
        Cluster.get_host c =
          Ok (h, Cluster.mk (Cluster.hosts c)
                   ((Cluster.__next_index c + 1) mod List.length (Cluster.hosts c)))) /\
  (forall A B C : URI.t,
      (r1 <- Cluster.get_host (Cluster.__init__ [A; B; C]) ;;
       r2 <- Cluster.get_host (snd r1) ;;
       r3 <- Cluster.get_host (snd r2) ;;
       r4 <- Cluster.get_host (snd r3) ;;
       Ok [fst r1; fst r2; fst r3; fst r4])%result = Ok [A; B; C; A]) /\
  (forall i : nat,
      Cluster.get_host (Cluster.mk [] i) =
        Raise (PilosaError [JStr "There are no available hosts"])).
Proof.
  split; [| split].
  - exact get_host_nonempty.
  - intros A B C. reflexivity.
  - intros i. reflexivity.
Qed.

(** [get_host_round_robin] on a pool of two hosts with the cursor at 1. *)
Lemma get_host_round_robin_witness :
  exists h : URI.t,
    nth_error [URI.mk "http" "a" 1; URI.mk "http" "b" 2] (1 mod 2) = Some h /\
    Cluster.get_host (Cluster.mk [URI.mk "http" "a" 1; URI.mk "http" "b" 2] 1) =
      Ok (h, Cluster.mk [URI.mk "http" "a" 1; URI.mk "http" "b" 2] ((1 + 1) mod 2)).
Proof.
  apply (proj1 get_host_round_robin
           (Cluster.mk [URI.mk "http" "a" 1; URI.mk "http" "b" 2] 1)).
  simpl. discriminate.
Defined.

(** ** URI: parsing the rendered form *)

Section Matcher.
Variable cls : ascii -> bool.

Lemma star_match_run (s1 s2 : string) (pos : nat) (caps m : captures) (k : cont) :
  string_all cls s1 = true -> stops cls s2 = true ->
  k (pos + String.length s1)%nat s2 caps = Some m ->
  star_match cls pos (s1 ++ s2) caps k = Some m.
Proof.
  revert pos; induction s1 as [| c s1 IH]; simpl; intros pos Hall Hstop Hk.
  - rewrite Nat.add_0_r in Hk.
    destruct s2 as [| c s2]; simpl in *; [exact Hk |].
    destruct (cls c); [discriminate | exact Hk].
  - apply andb_true_iff in Hall as [Hc Hall]. rewrite Hc.
    rewrite (IH (S pos)); auto.
    now rewrite Nat.add_succ_comm.
Qed.

Lemma plus_match_run (s1 s2 : string) (pos : nat) (caps m : captures) (k : cont) :
  s1 <> "" -> string_all cls s1 = true -> stops cls s2 = true ->
  k (pos + String.length s1)%nat s2 caps = Some m ->
  plus_match cls pos (s1 ++ s2) caps k = Some m.
Proof.
  destruct s1 as [| c s1]; [congruence |]; simpl; intros _ Hall Hstop Hk.
  apply andb_true_iff in Hall as [Hc Hall]. rewrite Hc.
  apply star_match_run; auto.
  now rewrite Nat.add_succ_comm.
Qed.

Lemma star_match_inv (s : string) (pos : nat) (caps m : captures) (k : cont) :
  star_match cls pos s caps k = Some m ->
  exists s1 s2, s = s1 ++ s2 /\ string_all cls s1 = true /\
                k (pos + String.length s1)%nat s2 caps = Some m.
Proof.
  revert pos; induction s as [| c s IH]; simpl; intros pos H.
  - exists "", "". rewrite Nat.add_0_r. auto.
  - destruct (cls c) eqn:Hc.
    + destruct (star_match cls (S pos) s caps k) eqn:E.
      * injection H as ->.
        destruct (IH _ E) as (s1 & s2 & -> & Hall & Hk).
        exists (String c s1), s2. simpl. rewrite Hc, Hall.
        rewrite <- Nat.add_succ_comm. auto.
      * exists "", (String c s). rewrite Nat.add_0_r. auto.
    + exists "", (String c s). rewrite Nat.add_0_r. auto.
Qed.

Lemma plus_match_inv (s : string) (pos : nat) (caps m : captures) (k : cont) :
  plus_match cls pos s caps k = Some m ->
  exists s1 s2, s = s1 ++ s2 /\ s1 <> "" /\ string_all cls s1 = true /\
                k (pos + String.length s1)%nat s2 caps = Some m.
Proof.
  destruct s as [| c s]; simpl; [discriminate |].
  destruct (cls c) eqn:Hc; [| discriminate].
  intros H. destruct (star_match_inv _ _ _ _ _ H) as (s1 & s2 & -> & Hall & Hk).
  exists (String c s1), s2. simpl. rewrite Hc, Hall.
  rewrite <- Nat.add_succ_comm. repeat split; auto. discriminate.
Qed.
End Matcher.

Lemma captured_prefix (pos : nat) (a b : string) :
  substring 0 (pos + String.length a - pos) (a ++ b) = a.
Proof.
  replace (pos + String.length a - pos)%nat with (String.length a) by lia.
  apply substring_prefix.
Qed.

(** With [^] in front, only offset 0 can match. *)
Lemma search_anchored (r : regex) (s : string) :
  search (Seq Bol r) s =
    match_re r 0 s no_captures done.
Proof.
  assert (H : forall t pos, search_from (Seq Bol r) (S pos) t = None).
  { induction t as [| c t IH]; intros pos; simpl; auto. }
  unfold search. destruct s as [| c s]; simpl.
  - now destruct (match_re r 0 "" no_captures _).
  - rewrite H. now destruct (match_re r 0 (String c s) no_captures _).
Qed.

Lemma digits_of_uint (d : Decimal.uint) :
  string_all digit_char (NilEmpty.string_of_uint d) = true.
Proof. induction d; simpl; auto. Qed.

Lemma py_str_digits (n : Z) :
  0 <= n ->
  (String.length (py_str n) <= int_max_str_digits)%nat ->
  py_str n <> "" /\ string_all digit_char (py_str n) = true /\
  py_int (py_str n) = Ok n.
Proof.
  intros Hn Hlen. unfold py_str in *.
  assert (E : exists d, Z.to_int n = Decimal.Pos d /\ d <> Decimal.Nil /\ Z.of_uint d = n).
  { destruct n as [| p | p]; simpl; [| | lia].
    - exists Decimal.zero. repeat split; discriminate.
    - exists (Pos.to_uint p). split; [reflexivity |].
      split; [apply DecimalPos.Unsigned.to_uint_nonnil |].
      unfold Z.of_uint. now rewrite DecimalPos.Unsigned.of_to. }
  destruct E as (d & Ed & Hd & Hz). rewrite Ed in *.
  cbn [NilZero.string_of_int] in *.
  assert (Es : NilZero.string_of_uint d = NilEmpty.string_of_uint d)
    by (destruct d; [congruence | reflexivity ..]).
  rewrite Es in *.
  assert (Hne : NilEmpty.string_of_uint d <> "") by (destruct d; simpl; congruence).
  split; [exact Hne |]. split; [apply digits_of_uint |].
  unfold py_int. rewrite (proj2 (Nat.ltb_ge _ _) Hlen), NilEmpty.usu, Hz.
  destruct (NilEmpty.string_of_uint d); congruence.
Qed.

Lemma opt_first {A} (x : option A) (y : option A) (m : A) :
  x = Some m -> match x with Some a => Some a | None => y end = Some m.
Proof. now intros ->. Qed.

Lemma append_empty_r (s : string) : s ++ "" = s.
Proof. induction s as [| c s IH]; simpl; [| rewrite IH]; reflexivity. Qed.

(** The pattern takes [scheme://host:digits] apart at the two separators. *)
Lemma pattern_match_rendered (scheme host digits : string) :
  scheme <> "" -> string_all scheme_char scheme = true ->
  host <> "" -> string_all host_char host = true ->
  digits <> "" -> string_all digit_char digits = true ->
  exists m : captures,
    search URI.__PATTERN (scheme ++ "://" ++ host ++ ":" ++ digits) = Some m /\
    m 2%nat = Some scheme /\ m 3%nat = Some host /\ m 5%nat = Some digits.
Proof.
  intros Hs1 Hs2 Hh1 Hh2 Hd1 Hd2.
  enough (E : exists m : captures,
             search URI.__PATTERN (scheme ++ "://" ++ host ++ ":" ++ digits ++ "") =
               Some m /\
             m 2%nat = Some scheme /\ m 3%nat = Some host /\ m 5%nat = Some digits)
    by (now rewrite append_empty_r in E).
  eexists. split.
  - unfold URI.__PATTERN. rewrite search_anchored.
    cbn [match_re]. apply opt_first.
    apply plus_match_run; auto.
    cbn [match_re]. simpl strip_prefix. cbv beta iota.
    apply opt_first.
    apply plus_match_run; auto.
    simpl strip_prefix. cbv beta iota.
    apply opt_first.
    apply plus_match_run; auto.
    reflexivity.
  - unfold set_group; simpl Nat.eqb; cbv iota.
    rewrite !captured_prefix. auto.
Qed.

Lemma present_nonempty (text : string) :
  text <> "" -> URI.present (Some text) = Some text.
Proof.
  intros H. simpl. destruct (String.eqb_spec text ""); congruence.
Qed.

Lemma present_inv (g : option string) (text : string) :
  URI.present g = Some text -> g = Some text /\ text <> "".
Proof.
  destruct g as [t |]; simpl; [| discriminate].
  destruct (String.eqb_spec t ""); [discriminate |].
  intros [= ->]. auto.
Qed.

(** A URI of the grammar is parsed back from its rendering. *)
Lemma address_of_str (u : URI.t) :
  in_grammar u -> URI.address (URI.__str__ u) = Ok u.
Proof.
  destruct u as [scheme host port]; unfold in_grammar; simpl.
  intros (Hs1 & Hs2 & Hh1 & Hh2 & Hp & Hlen).
  destruct (py_str_digits port Hp Hlen) as (Hd1 & Hd2 & Hint).
  destruct (pattern_match_rendered scheme host (py_str port))
    as (m & Hm & H2 & H3 & H5); auto.
  unfold URI.address, URI._parse, URI.__str__; simpl URI.scheme; simpl URI.host;
    simpl URI.port.
  rewrite Hm, H2, H3, H5, !present_nonempty by assumption.
  simpl. rewrite Hint. reflexivity.
Qed.

Lemma captures_ok_set (n : nat) (t : string) (caps : captures) :
  captures_ok caps ->
  (n = 2%nat -> string_all scheme_char t = true) ->
  (n = 3%nat -> string_all host_char t = true) ->
  (n = 5%nat -> string_all digit_char t = true) ->
  captures_ok (set_group n t caps).
Proof.
  intros (C2 & C3 & C5) H2 H3 H5. unfold captures_ok, set_group.
  repeat split; intros t'.
  - destruct (Nat.eqb_spec 2 n); [intros [= <-]; auto | auto].
  - destruct (Nat.eqb_spec 3 n); [intros [= <-]; auto | auto].
  - destruct (Nat.eqb_spec 5 n); [intros [= <-]; auto | auto].
Qed.

Lemma opt_inv {A} (x y : option A) (m : A) :
  match x with Some a => Some a | None => y end = Some m ->
  x = Some m \/ y = Some m.
Proof. destruct x; auto. Qed.

Lemma port_part_ok (pos : nat) (s : string) (caps m : captures) :
  captures_ok caps ->
  match_re (Seq (Opt (Group 4 (Seq (Lit ":") (Group 5 (Plus digit_char))))) Eol)
    pos s caps done = Some m ->
  captures_ok m.
Proof.
  intros Hc E. cbn [match_re] in E.
  apply opt_inv in E. destruct E as [E | E].
  - destruct (strip_prefix ":" s) as [s' |]; [| discriminate].
    apply plus_match_inv in E. destruct E as (s1 & s2 & -> & _ & Hall & E).
    destruct (_ || _); [| discriminate].
    injection E as <-. rewrite captured_prefix.
    apply captures_ok_set; try discriminate.
    apply captures_ok_set; try discriminate; auto.
  - destruct (_ || _); [| discriminate].
    injection E as <-. exact Hc.
Qed.

Lemma host_part_ok (pos : nat) (s : string) (caps m : captures) :
  captures_ok caps ->
  match_re
    (Seq (Opt (Group 3 (Plus host_char)))
       (Seq (Opt (Group 4 (Seq (Lit ":") (Group 5 (Plus digit_char))))) Eol))
    pos s caps done = Some m ->
  captures_ok m.
Proof.
  intros Hc E. cbn [match_re] in E.
  apply opt_inv in E. destruct E as [E | E].
  - apply plus_match_inv in E. destruct E as (s1 & s2 & -> & _ & Hall & E).
    rewrite captured_prefix in E.
    eapply port_part_ok; [| exact E].
    apply captures_ok_set; try discriminate; auto.
  - eapply port_part_ok; [exact Hc | exact E].
Qed.

Lemma pattern_ok (s : string) (m : captures) :
  search URI.__PATTERN s = Some m -> captures_ok m.
Proof.
  unfold URI.__PATTERN. rewrite search_anchored. intros E.
  assert (H0 : captures_ok no_captures)
    by (repeat split; intros t; discriminate).
  cbn [match_re] in E.
  apply opt_inv in E. destruct E as [E | E].
  - apply plus_match_inv in E. destruct E as (s1 & s2 & -> & _ & Hall & E).
    destruct (strip_prefix "://" s2) as [s' |]; [| discriminate].
    rewrite captured_prefix in E.
    eapply host_part_ok; [| exact E].
    apply captures_ok_set; try discriminate.
    apply captures_ok_set; try discriminate; auto.
  - eapply host_part_ok; [exact H0 | exact E].
Qed.

Lemma nzhead_length (d : Decimal.uint) :
  (String.length (NilEmpty.string_of_uint (Decimal.nzhead d)) <=
   String.length (NilEmpty.string_of_uint d))%nat.
Proof. induction d; simpl; lia. Qed.

(** What [int] returns is not negative and has no more digits than the
    string had. *)
Lemma py_int_nonneg (s : string) (n : Z) :
  py_int s = Ok n ->
  0 <= n /\ (String.length (py_str n) <= int_max_str_digits)%nat.
Proof.
  unfold py_int. destruct s as [| c s]; [discriminate |].
  destruct (int_max_str_digits <? String.length (String c s))%nat eqn:Elim;
    [discriminate |].
  apply Nat.ltb_ge in Elim.
  destruct (NilEmpty.uint_of_string (String c s)) as [d |] eqn:Ed; [| discriminate].
  intros [= <-]. split; [unfold Z.of_uint; lia |].
  apply NilEmpty.sus in Ed.
  unfold py_str. change (Z.of_uint d) with (Z.of_int (Decimal.Pos d)).
  rewrite DecimalZ.to_of. cbn [Decimal.norm NilZero.string_of_int].
  apply Nat.le_trans with (String.length (String c s)); [| exact Elim].
  rewrite <- Ed. unfold Decimal.unorm.
  pose proof (nzhead_length d) as Hnz.
  destruct (Decimal.nzhead d) eqn:En; simpl in Hnz |- *; try lia.
  rewrite Ed. simpl. lia.
Qed.

Lemma default_port_length :
  (String.length (py_str (URI.port URI.init)) <= int_max_str_digits)%nat.
Proof.
  change (String.length (py_str (URI.port URI.init))) with 5%nat.
  unfold int_max_str_digits. lia.
Qed.

(** Whatever [address] returns is a URI of the grammar. *)
Lemma address_in_grammar (text : string) (u : URI.t) :
  URI.address text = Ok u -> in_grammar u.
Proof.
  unfold URI.address, URI._parse.
  destruct (search URI.__PATTERN text) as [m |] eqn:E; [| discriminate].
  destruct (pattern_ok _ _ E) as (C2 & C3 & C5).
  destruct (URI.present (m 2%nat)) as [sch |] eqn:E2;
    [apply present_inv in E2 as [E2 N2]; apply C2 in E2 |];
  (destruct (URI.present (m 3%nat)) as [hst |] eqn:E3;
    [apply present_inv in E3 as [E3 N3]; apply C3 in E3 |]);
  (destruct (URI.present (m 5%nat)) as [prt |] eqn:E5;
    [ destruct (py_int prt) as [p |] eqn:Ep; simpl; [| discriminate];
      apply py_int_nonneg in Ep as [Ep Hlen]
    | ]);
  intros [= <-]; unfold in_grammar; cbn [URI.scheme URI.host URI.port];
  repeat split; auto; try discriminate; try lia;
  exact default_port_length.
Qed.

(** C5. For every URI the grammar can produce (a non-empty scheme over
    [[+a-z]], a non-empty host over [[0-9a-z.-]], a port that a string of
    digits denotes, which has at most as many digits as [int] converts)
    parsing its [str] gives a URI equal to it under [__eq__]; it is in
    fact the same URI.  Every URI that [address] returns for some text is
    such a URI. *)
Theorem address_str_roundtrip (u : URI.t) :
  in_grammar u \/ (exists text : string, URI.address text = Ok u) ->
  exists u' : URI.t,
    URI.address (URI.__str__ u) = Ok u' /\ URI.__eq__ u' u = true /\ u' = u.
Proof.
  intros H.
  assert (G : in_grammar u).
  { destruct H as [G | [text Ht]]; [exact G | exact (address_in_grammar text u Ht)]. }
  exists u. split; [now apply address_of_str |].
  split; [now apply URI_eq_spec | reflexivity].
Qed.

(** [address_str_roundtrip] at the URI parsed from [http+tls://10.0.0.1:9999]. *)
Lemma address_str_roundtrip_witness :
  exists u' : URI.t,
    URI.address (URI.__str__ (URI.mk "http+tls" "10.0.0.1" 9999)) = Ok u' /\
    URI.__eq__ u' (URI.mk "http+tls" "10.0.0.1" 9999) = true /\
    u' = URI.mk "http+tls" "10.0.0.1" 9999.
Proof.
  apply (address_str_roundtrip (URI.mk "http+tls" "10.0.0.1" 9999)).
  right. exists "http+tls://10.0.0.1:9999". vm_compute. reflexivity.
Defined.

(** ** Client *)

Lemma mapR_total {A B} (f : A -> result B) (xs : list A) :
  Forall (fun x => exists y, f x = Ok y) xs -> exists ys, mapR f xs = Ok ys.
Proof.
  induction 1 as [| x xs' [y Hy] _ [ys Hys]]; simpl.
  - eauto.
  - rewrite Hy; simpl. rewrite Hys; simpl. eauto.
Qed.

Lemma from_item_total (r : json) :
  result_item_ok r -> exists y, QueryResult.from_item r = Ok y.
Proof.
  destruct r; simpl; intros H; eauto.
  - destruct (mapR_total CountResultItem.from_dict xs) as [cs Hcs].
    { eapply Forall_impl; [| exact H].
      intros x (i & c & Hi & Hc). unfold CountResultItem.from_dict.
      rewrite Hi, Hc; simpl. eauto. }
    unfold QueryResult.from_item. rewrite Hcs; simpl. eauto.
  - unfold QueryResult.from_item, BitmapResult.from_dict, py_get.
    destruct (dict_lookup kvs "bits"), (dict_lookup kvs "attrs"); simpl; eauto.
Qed.

Lemma from_dict_total (kvs : list (string * json)) :
  envelope_ok kvs -> exists resp, QueryResponse.from_dict (JDict kvs) = Ok resp.
Proof.
  intros [(rs & Hrs & Hr) (ps & Hps & Hp)].
  unfold QueryResponse.from_dict. rewrite Hrs, Hps; simpl rbind.
  destruct (mapR_total QueryResult.from_item rs) as [results Hresults].
  { eapply Forall_impl; [| exact Hr]. exact from_item_total. }
  destruct (mapR_total ProfileItem.from_dict ps) as [profiles Hprofiles].
  { eapply Forall_impl; [| exact Hp].
    intros p (i & a & Hi & Ha). unfold ProfileItem.from_dict.
    rewrite Hi, Ha; simpl. eauto. }
  rewrite Hresults, Hprofiles; simpl.
  destruct (dict_lookup kvs "error"); simpl; eauto.
Qed.

Section ClientFacts.
Variable version : string.
Variable respond : list request -> request -> outcome.

Local Abbreviation http_request := (Client.__http_request version respond).
Local Abbreviation HEADERS := (Client.__HEADERS version).

(** A request that is answered: what [http_request] makes of the answer. *)
Lemma http_request_answered (self : Client.t) (wire : list request)
    (method : http_method) (path : string) (data : option string)
    (client_response : Z) (uri : URI.t) (c : Cluster.t) (r : response) :
  Cluster.get_host (Client.cluster self) = Ok (uri, c) ->
  respond wire (mk_request method (URI.normalize uri ++ path) data HEADERS) =
    Answered r ->
  http_request self wire method path data client_response =
    (if client_response =? Client.__RAW_RESPONSE then Ok (Some r)
     else if (200 <=? status_code r) && (status_code r <? 300) then
       Ok (if client_response =? Client.__NO_RESPONSE then None else Some r)
     else
       match Client.__RECOGNIZED_ERRORS (text r) with
       | Some ex => Raise ex
       | None =>
           Raise (PilosaError [JStr "Server error (%d): %s";
                               JInt (status_code r); JStr (text r)])
       end,
     Client.mk c (Client.__current_host self),
     (wire ++ [mk_request method (URI.normalize uri ++ path) data HEADERS])%list).
Proof.
  intros Hget Hr.
  unfold Client.__http_request. rewrite Hget, Hr.
  destruct (client_response =? Client.__RAW_RESPONSE); [reflexivity |].
  destruct ((200 <=? status_code r) && (status_code r <? 300)); [reflexivity |].
  destruct (Client.__RECOGNIZED_ERRORS (text r)); reflexivity.
Qed.

Lemma get_host_keeps_hosts (c c' : Cluster.t) (uri : URI.t) :
  Cluster.get_host c = Ok (uri, c') ->
  Cluster.hosts c' = Cluster.hosts c /\ Cluster.hosts c <> [].
Proof.
  unfold Cluster.get_host.
  destruct (Cluster.hosts c) as [| x hs] eqn:E; simpl; [discriminate |].
  destruct (nth_error _ _); [| discriminate].
  intros [= _ <-]. simpl. split; [reflexivity | discriminate].
Qed.

Lemma is_2xx_true (r : response) :
  200 <= status_code r < 300 ->
  (200 <=? status_code r) && (status_code r <? 300) = true.
Proof. intros H. apply andb_true_iff. split; [apply Z.leb_le | apply Z.ltb_lt]; lia. Qed.

Lemma is_2xx_false (r : response) :
  ~ 200 <= status_code r < 300 ->
  (200 <=? status_code r) && (status_code r <? 300) = false.
Proof.
  intros H. apply andb_false_iff.
  destruct (Z.leb_spec 200 (status_code r)); [right; apply Z.ltb_ge; lia | now left].
Qed.

Local Abbreviation create_database := (Client.create_database version respond).
Local Abbreviation delete_database := (Client.delete_database version respond).
Local Abbreviation create_frame := (Client.create_frame version respond).
Local Abbreviation delete_frame := (Client.delete_frame version respond).
Local Abbreviation ensure_database := (Client.ensure_database version respond).
Local Abbreviation ensure_frame := (Client.ensure_frame version respond).
Local Abbreviation query := (Client.query version respond).

(** The four schema calls send one request each and drop the response. *)
Lemma schema_call_answered (self : Client.t) (wire : list request)
    (database : Database.t) (frame : Frame.t) (out : Client.run unit)
    (r : response) :
  Cluster.hosts (Client.cluster self) <> [] ->
  (forall req, respond wire req = Answered r) ->
  out = create_database self wire database \/
  out = delete_database self wire database \/
  out = create_frame self wire frame \/
  out = delete_frame self wire frame ->
  fst (fst out) =
    if (200 <=? status_code r) && (status_code r <? 300) then Ok tt
    else
      match Client.__RECOGNIZED_ERRORS (text r) with
      | Some ex => Raise ex
      | None =>
          Raise (PilosaError [JStr "Server error (%d): %s";
                              JInt (status_code r); JStr (text r)])
      end.
Proof.
  intros Hne Hr Hout.
  destruct (get_host_nonempty _ Hne) as (uri & _ & Hget).
  destruct Hout as [-> | [-> | [-> | ->]]];
    unfold Client.create_database, Client.delete_database, Client.create_frame,
      Client.delete_frame, Client.__create_or_delete_database,
      Client.__create_or_delete_frame;
    rewrite (http_request_answered _ _ _ _ _ _ uri _ r Hget (Hr _));
    change (Client.__NO_RESPONSE =? Client.__RAW_RESPONSE) with false; cbv iota;
    (destruct ((200 <=? status_code r) && (status_code r <? 300));
     [reflexivity |]);
    destruct (Client.__RECOGNIZED_ERRORS (text r)); reflexivity.
Qed.

(** C7. A schema call ([create_database], [delete_database], [create_frame],
    [delete_frame]) whose request is answered with [r]: when the status of
    [r] is 2xx the call returns; otherwise it raises [DatabaseExistsError]
    when the body is exactly [database already exists] plus newline,
    [FrameExistsError] when it is exactly [frame already exists] plus
    newline, and in every other case a [PilosaError] that carries the
    status and the body. *)
Theorem schema_call_error_mapping (self : Client.t) (wire : list request)
    (database : Database.t) (frame : Frame.t) (out : Client.run unit)
    (r : response) :
  Cluster.hosts (Client.cluster self) <> [] ->
  (forall req, respond wire req = Answered r) ->
  out = create_database self wire database \/
  out = delete_database self wire database \/
  out = create_frame self wire frame \/
  out = delete_frame self wire frame ->
  (200 <= status_code r < 300 -> fst (fst out) = Ok tt) /\
  (~ 200 <= status_code r < 300 ->
   (text r = "database already exists" ++ nl ->
    fst (fst out) = Raise DatabaseExistsError) /\
   (text r = "frame already exists" ++ nl ->
    fst (fst out) = Raise FrameExistsError) /\
   (text r <> "database already exists" ++ nl ->
    text r <> "frame already exists" ++ nl ->
    fst (fst out) =
      Raise (PilosaError [JStr "Server error (%d): %s";
                          JInt (status_code r); JStr (text r)]))).
Proof.
  intros Hne Hr Hout.
  rewrite (schema_call_answered self wire database frame out r Hne Hr Hout).
  split.
  - intros H. now rewrite is_2xx_true.
  - intros H. rewrite (is_2xx_false r H). unfold Client.__RECOGNIZED_ERRORS.
    repeat split.
    + intros ->. reflexivity.
    + intros ->. reflexivity.
    + intros H1 H2.
      destruct (String.eqb_spec (text r) ("database already exists" ++ nl));
        [contradiction |].
      destruct (String.eqb_spec (text r) ("frame already exists" ++ nl));
        [contradiction | reflexivity].
Qed.

Lemma ensure_database_cases (self : Client.t) (wire : list request)
    (database : Database.t) :
  (fst (fst (create_database self wire database)) = Raise DatabaseExistsError ->
   ensure_database self wire database =
     (Ok tt, snd (fst (create_database self wire database)),
      snd (create_database self wire database))) /\
  (fst (fst (create_database self wire database)) <> Raise DatabaseExistsError ->
   ensure_database self wire database = create_database self wire database).
Proof.
  unfold Client.ensure_database.
  destruct (create_database self wire database) as [[[a | e] s] w]; simpl.
  - split; [discriminate | reflexivity].
  - destruct e; split; try discriminate; try reflexivity; congruence.
Qed.

Lemma ensure_frame_cases (self : Client.t) (wire : list request) (frame : Frame.t) :
  (fst (fst (create_frame self wire frame)) = Raise FrameExistsError ->
   ensure_frame self wire frame =
     (Ok tt, snd (fst (create_frame self wire frame)),
      snd (create_frame self wire frame))) /\
  (fst (fst (create_frame self wire frame)) <> Raise FrameExistsError ->
   ensure_frame self wire frame = create_frame self wire frame).
Proof.
  unfold Client.ensure_frame.
  destruct (create_frame self wire frame) as [[[a | e] s] w]; simpl.
  - split; [discriminate | reflexivity].
  - destruct e; split; try discriminate; try reflexivity; congruence.
Qed.

(** A call that returned left the pool with the hosts it had, and it had
    some. *)
Lemma ensure_database_returned (self self1 : Client.t) (wire wire1 : list request)
    (database : Database.t) :
  ensure_database self wire database = (Ok tt, self1, wire1) ->
  Cluster.hosts (Client.cluster self1) <> [].
Proof.
  unfold Client.ensure_database, Client.create_database,
    Client.__create_or_delete_database, Client.__http_request.
  destruct (Cluster.get_host (Client.cluster self)) as [[uri c] | e] eqn:Hget.
  - destruct (get_host_keeps_hosts _ _ _ Hget) as [Hsame Hne].
    destruct (respond wire _) as [r | msg | msg].
    + change (Client.__NO_RESPONSE =? Client.__RAW_RESPONSE) with false; cbv iota.
      destruct ((200 <=? status_code r) && (status_code r <? 300)).
      * simpl. intros [= <- _]. simpl. congruence.
      * destruct (Client.__RECOGNIZED_ERRORS (text r)) as [[] |]; simpl;
          try discriminate.
        intros [= <- _]. simpl. congruence.
    + destruct msg;
        (destruct (Cluster.remove_host _ _) as [? | []]; simpl; try discriminate;
         intros [= <- _]; simpl; congruence).
    + simpl. discriminate.
  - assert (He : e <> DatabaseExistsError).
    { unfold Cluster.get_host in Hget.
      destruct (_ =? _)%nat; [congruence |].
      destruct (nth_error _ _); congruence. }
    simpl. destruct e; try discriminate. congruence.
Qed.

(** C6. [ensure_database] calls [create_database] and [ensure_frame] calls
    [create_frame].  When the create call raises the conflict error
    ([DatabaseExistsError], respectively [FrameExistsError]) the ensure call
    returns, in the state the create call left.  In every other case the
    ensure call ends exactly as the create call did: with the same
    exception, the same state and the same requests sent.  Hence, when a
    first [ensure_database] has returned and the server goes on to answer
    with success or with [database already exists], a second
    [ensure_database] for the same database returns as well. *)
Theorem ensure_swallows_only_conflict (self : Client.t) (wire : list request)
    (database : Database.t) (frame : Frame.t) :
  (fst (fst (create_database self wire database)) = Raise DatabaseExistsError ->
   ensure_database self wire database =
     (Ok tt, snd (fst (create_database self wire database)),
      snd (create_database self wire database))) /\
  (fst (fst (create_database self wire database)) <> Raise DatabaseExistsError ->
   ensure_database self wire database = create_database self wire database) /\
  (fst (fst (create_frame self wire frame)) = Raise FrameExistsError ->
   ensure_frame self wire frame =
     (Ok tt, snd (fst (create_frame self wire frame)),
      snd (create_frame self wire frame))) /\
  (fst (fst (create_frame self wire frame)) <> Raise FrameExistsError ->
   ensure_frame self wire frame = create_frame self wire frame) /\
  (forall (self1 : Client.t) (wire1 : list request),
      ensure_database self wire database = (Ok tt, self1, wire1) ->
      (forall req, exists r,
          respond wire1 req = Answered r /\
          (200 <= status_code r < 300 \/
           text r = "database already exists" ++ nl)) ->
      fst (fst (ensure_database self1 wire1 database)) = Ok tt).
Proof.
  destruct (ensure_database_cases self wire database) as [D1 D2].
  destruct (ensure_frame_cases self wire frame) as [F1 F2].
  repeat split; auto.
  intros self1 wire1 Hfirst Hserver.
  pose proof (ensure_database_returned _ _ _ _ _ Hfirst) as Hne.
  destruct (get_host_nonempty _ Hne) as (uri & _ & Hget).
  unfold Client.ensure_database, Client.create_database,
    Client.__create_or_delete_database.
  match goal with
  | |- context [Client.__http_request _ _ _ _ ?m ?p ?d _] =>
      destruct (Hserver (mk_request m (URI.normalize uri ++ p) d HEADERS))
        as (r & Hr & Hok)
  end.
  rewrite (http_request_answered _ _ _ _ _ _ uri _ r Hget Hr).
  change (Client.__NO_RESPONSE =? Client.__RAW_RESPONSE) with false; cbv iota.
  destruct ((200 <=? status_code r) && (status_code r <? 300)) eqn:E2xx;
    [reflexivity |].
  destruct Hok as [H2xx | Htext].
  - rewrite (is_2xx_true r H2xx) in E2xx. discriminate.
  - rewrite Htext. reflexivity.
Qed.

(** C2, as the code has it.  A query whose request is answered with a body
    that parses to a JSON object, whatever the HTTP status: when the object
    has the key [error] the call raises [PilosaError] with the value of
    that key as its only argument; when it has no such key the call ends
    as [QueryResponse.from_dict] ends on the object, and so returns the
    decoded response whenever [results] and [profiles] are arrays whose
    count items carry [id] and [count] and whose profiles carry [id] and
    [attrs]. *)
Theorem query_error_key_decides (self : Client.t) (wire : list request)
    (q : Query.t) (profiles : bool) (r : response) (kvs : list (string * json)) :
  Cluster.hosts (Client.cluster self) <> [] ->
  (forall req, respond wire req = Answered r) ->
  json_body r = Some (JDict kvs) ->
  (forall e : json,
      dict_lookup kvs "error" = Some e ->
      fst (fst (query self wire q profiles)) = Raise (PilosaError [e])) /\
  (dict_lookup kvs "error" = None ->
   fst (fst (query self wire q profiles)) = QueryResponse.from_dict (JDict kvs) /\
   (envelope_ok kvs ->
    exists resp : QueryResponse.t,
      fst (fst (query self wire q profiles)) = Ok resp)).
Proof.
  intros Hne Hr Hbody.
  destruct (get_host_nonempty _ Hne) as (uri & _ & Hget).
  assert (E : fst (fst (query self wire q profiles)) =
              (has_error <- Client.py_contains "error" (JDict kvs) ;;
               if has_error : bool then
                 (e <- py_getitem (JDict kvs) "error" ;; Raise (PilosaError [e]))
               else QueryResponse.from_dict (JDict kvs))%result).
  { unfold Client.query.
    rewrite (http_request_answered _ _ _ _ _ _ uri _ r Hget (Hr _)).
    change (Client.__RAW_RESPONSE =? Client.__RAW_RESPONSE) with true; cbv iota.
    rewrite Hbody. reflexivity. }
  rewrite E. simpl. split.
  - intros e He. rewrite He. reflexivity.
  - intros He. rewrite He. split; [reflexivity |].
    intros Hok. apply from_dict_total, Hok.
Qed.


End ClientFacts.

(** ** The client on concrete servers *)

(** [schema_call_error_mapping] on a server that answers 409 with the
    conflict message of the database. *)
Lemma schema_call_error_mapping_witness :
  fst (fst (Client.create_database "1.0" (answers conflict_response)
              example_client [] example_database)) = Raise DatabaseExistsError.
Proof.
  refine (proj1 (proj2 (schema_call_error_mapping "1.0" (answers conflict_response)
                          example_client [] example_database example_frame
                          _ conflict_response _ _ _) _) _).
  - discriminate.
  - intros req. reflexivity.
  - left. reflexivity.
  - simpl. lia.
  - reflexivity.
Defined.

(** [ensure_swallows_only_conflict] on a server that remembers what it
    created: the second [ensure_database] returns. *)
Lemma ensure_swallows_only_conflict_witness :
  fst (fst (Client.ensure_database "1.0" creates_once
              (snd (fst (Client.ensure_database "1.0" creates_once
                           example_client [] example_database)))
              (snd (Client.ensure_database "1.0" creates_once
                      example_client [] example_database))
              example_database)) = Ok tt.
Proof.
  refine (proj2 (proj2 (proj2 (proj2
            (ensure_swallows_only_conflict "1.0" creates_once example_client []
               example_database example_frame)))) _ _ _ _).
  - reflexivity.
  - intros req. unfold creates_once.
    destruct (existsb _ _); eexists; (split; [reflexivity |]).
    + right. reflexivity.
    + left. simpl. lia.
Defined.

(** [query_error_key_decides] on a rejected query: status 400, and the
    message of the server comes out as it is. *)
Lemma query_error_key_decides_witness :
  fst (fst (Client.query "1.0" (answers parse_error_response) example_client []
              (Query.mk example_database "SetBit(id=5, col_id:=10)") false)) =
    Raise (PilosaError [JStr "parse error at col_id"]).
Proof.
  refine (proj1 (query_error_key_decides "1.0" (answers parse_error_response)
                   example_client [] _ false parse_error_response
                   [("error", JStr "parse error at col_id")] _ _ _) _ _).
  - discriminate.
  - intros req. reflexivity.
  - reflexivity.
  - reflexivity.
Defined.

Lemma query_short_item :
  dict_lookup [("results", JList [JList [JDict [("id", JInt 1)]]])] "error" = None /\
  fst (fst (Client.query "1.0" (answers short_item_response) example_client []
              (Query.mk example_database "TopN(frame=test, n=1)") false)) =
    Raise (KeyError "count").
Proof. split; reflexivity. Qed.

(** C2 as it is written does not hold: a body without the key [error] does
    not make [query] return.  The answer [short_item_response] has status
    200 and no [error] key, and the call raises [KeyError]. *)
Lemma query_without_error_key_may_raise :
  ~ (forall (version : string) (respond : list request -> request -> outcome)
       (self : Client.t) (wire : list request) (q : Query.t) (profiles : bool)
       (r : response) (kvs : list (string * json)),
        Cluster.hosts (Client.cluster self) <> [] ->
        (forall req, respond wire req = Answered r) ->
        json_body r = Some (JDict kvs) ->
        dict_lookup kvs "error" = None ->
        exists resp : QueryResponse.t,
          fst (fst (Client.query version respond self wire q profiles)) = Ok resp).
Proof.
  intros H.
  destruct (H "1.0" (answers short_item_response) example_client []
              (Query.mk example_database "TopN(frame=test, n=1)") false
              short_item_response
              [("results", JList [JList [JDict [("id", JInt 1)]]])])
    as [resp Hresp].
  - discriminate.
  - intros req. reflexivity.
  - reflexivity.
  - reflexivity.
  - rewrite (proj2 query_short_item) in Hresp. discriminate.
Qed.

(** C1 on the code.  A client over the pool [[a, b]] keeps [a] as its
    current host.  Its first request goes to [b]; when the connection
    fails the pool is left with [[b]]: [a], which was not contacted, is
    gone and [b], which failed, stays.  The call raises
    [PilosaNotAvailable] with the message of the error when the error has
    the attribute [message], and the [AttributeError] of reading it when
    it has none.  The next request goes to [b] again, and when that
    connection fails too, removing [a] once more ends in [ValueError]. *)
Theorem stale_host_removed_on_failure (message : option string) :
  let a := URI.mk "http" "a" 10101 in
  let b := URI.mk "http" "b" 10101 in
  let to_b := mk_request post "http://b:10101/db" None (Client.__HEADERS "1.0") in
  Client.__init__ (Some (Cluster.__init__ [a; b])) =
    Ok (Client.mk (Cluster.mk [a; b] 1) a) /\
  Client.__http_request "1.0" (refuses message) (Client.mk (Cluster.mk [a; b] 1) a) []
    post "/db" None Client.__NO_RESPONSE =
    (match message with
     | Some text => Raise (PilosaNotAvailable text)
     | None => Raise AttributeError
     end,
     Client.mk (Cluster.mk [b] 0) a, [to_b]) /\
  Client.__http_request "1.0" (refuses message) (Client.mk (Cluster.mk [b] 0) a) [to_b]
    post "/db" None Client.__NO_RESPONSE =
    (Raise ValueError, Client.mk (Cluster.mk [b] 0) a, [to_b; to_b]).
Proof. repeat split. Qed.

(** ** More on the cluster *)

Lemma get_host_at (hs : list URI.t) (i : nat) :
  hs <> [] ->
  exists h : URI.t,
    nth_error hs (i mod List.length hs) = Some h /\
    Cluster.get_host (Cluster.mk hs i) =
      Ok (h, Cluster.mk hs ((i + 1) mod List.length hs)).
Proof. intros H. exact (get_host_nonempty (Cluster.mk hs i) H). Qed.

Lemma get_hosts_from (hs : list URI.t) (k i : nat) :
  hs <> [] ->
  exists rs : list URI.t,
    get_hosts k (Cluster.mk hs i) =
      Ok (rs, Cluster.mk hs
                match k with
                | O => i
                | S _ => (i + k) mod List.length hs
                end) /\
    List.length rs = k /\
    forall j, (j < k)%nat ->
              nth_error rs j = nth_error hs ((i + j) mod List.length hs).
Proof.
  intros Hne. revert i. induction k as [| k IH]; intros i.
  - exists []. simpl. repeat split; auto. intros j Hj. lia.
  - destruct (get_host_at hs i Hne) as (h & Hh & Hget).
    destruct (IH ((i + 1) mod List.length hs)%nat) as (rs & Hrs & Hlen & Hnth).
    assert (Hpos : List.length hs <> 0%nat) by (destruct hs; simpl; congruence).
    exists (h :: rs). split; [| split].
    + cbn [get_hosts]. rewrite Hget. cbn [rbind fst snd]. rewrite Hrs.
      cbn [rbind fst snd]. do 3 f_equal.
      destruct k; [reflexivity |].
      rewrite Nat.Div0.add_mod_idemp_l. f_equal. lia.
    + simpl. now rewrite Hlen.
    + intros [| j] Hj; simpl.
      * now rewrite Nat.add_0_r.
      * rewrite Hnth by lia. rewrite Nat.Div0.add_mod_idemp_l. do 2 f_equal. lia.
Qed.

(** X1. On a pool that is not empty, [k] calls of [get_host] in a row all
    return, leave the hosts as they are, and return the hosts cyclically
    from the cursor on: the call number [j] returns the host at index
    [(i + j) mod len(hosts)], where [i] is the cursor before the first
    call. *)
Theorem get_hosts_cyclic (hs : list URI.t) (k i : nat) :
  hs <> [] ->
  exists (rs : list URI.t) (c' : Cluster.t),
    get_hosts k (Cluster.mk hs i) = Ok (rs, c') /\
    Cluster.hosts c' = hs /\
    List.length rs = k /\
    forall j, (j < k)%nat ->
              nth_error rs j = nth_error hs ((i + j) mod List.length hs).
Proof.
  intros Hne.
  destruct (get_hosts_from hs k i Hne) as (rs & Hrs & Hlen & Hnth).
  exists rs. eexists. split; [exact Hrs |]. simpl. auto.
Qed.

(** [get_hosts_cyclic] on two hosts, three calls from cursor 1. *)
Lemma get_hosts_cyclic_witness :
  exists (rs : list URI.t) (c' : Cluster.t),
    get_hosts 3 (Cluster.mk [URI.mk "http" "a" 1; URI.mk "http" "b" 2] 1) =
      Ok (rs, c') /\
    Cluster.hosts c' = [URI.mk "http" "a" 1; URI.mk "http" "b" 2] /\
    List.length rs = 3%nat /\
    forall j, (j < 3)%nat ->
              nth_error rs j =
              nth_error [URI.mk "http" "a" 1; URI.mk "http" "b" 2] ((1 + j) mod 2).
Proof.
  apply (get_hosts_cyclic [URI.mk "http" "a" 1; URI.mk "http" "b" 2] 3 1).
  discriminate.
Defined.

(** X2. As many calls of [get_host] as a new pool has hosts return the
    hosts of the pool, each once and in the order of the pool, and leave
    the pool as it was, with the cursor back at 0. *)
Theorem get_hosts_full_cycle (hs : list URI.t) :
  get_hosts (List.length hs) (Cluster.__init__ hs) = Ok (hs, Cluster.__init__ hs).
Proof.
  destruct hs as [| x hs']; [reflexivity |].
  set (hs := x :: hs').
  assert (Hne : hs <> []) by discriminate.
  destruct (get_hosts_from hs (List.length hs) 0 Hne) as (rs & Hrs & Hlen & Hnth).
  unfold Cluster.__init__. rewrite Hrs.
  assert (Ers : rs = hs).
  { apply nth_error_ext. intros j.
    destruct (Nat.lt_ge_cases j (List.length hs)) as [Hj | Hj].
    - rewrite Hnth by exact Hj. simpl Nat.add. now rewrite Nat.mod_small.
    - rewrite (proj2 (nth_error_None hs j)) by exact Hj.
      apply nth_error_None. lia. }
  rewrite Ers. do 3 f_equal.
  subst hs. cbn [List.length]. cbn [Nat.add]. apply Nat.Div0.mod_same.
Qed.

Lemma get_host_error (c : Cluster.t) (e : exn) :
  Cluster.get_host c = Raise e ->
  Cluster.hosts c = [] /\ e = PilosaError [JStr "There are no available hosts"].
Proof.
  destruct (Cluster.hosts c) as [| x hs] eqn:E.
  - unfold Cluster.get_host. rewrite E. simpl. intros [= <-]. auto.
  - destruct (get_host_nonempty c) as (h & _ & Hget); [congruence |].
    rewrite Hget. discriminate.
Qed.

(** X3. [get_host] fails only on an empty pool, and then with the error
    [There are no available hosts]; the value of the cursor plays no part,
    also when it lies beyond the end of the pool, as it may after a
    removal.  A call that returns gives a host of the pool, leaves the
    hosts as they are and leaves the cursor below the number of hosts. *)
Theorem get_host_fails_only_when_empty (c : Cluster.t) :
  (forall e : exn,
      Cluster.get_host c = Raise e ->
      Cluster.hosts c = [] /\
      e = PilosaError [JStr "There are no available hosts"]) /\
  (Cluster.hosts c <> [] -> exists r, Cluster.get_host c = Ok r) /\
  (forall (h : URI.t) (c' : Cluster.t),
      Cluster.get_host c = Ok (h, c') ->
      In h (Cluster.hosts c) /\
      Cluster.hosts c' = Cluster.hosts c /\
      (Cluster.__next_index c' < List.length (Cluster.hosts c'))%nat).
Proof.
  split; [exact (get_host_error c) |]. split.
  - intros Hne. destruct (get_host_nonempty c Hne) as (h & _ & Hget). eauto.
  - intros h c' Hget.
    destruct (get_host_keeps_hosts _ _ _ Hget) as [Hsame Hne].
    destruct (get_host_nonempty c Hne) as (h' & Hnth & Hget').
    rewrite Hget in Hget'. injection Hget' as -> ->. simpl.
    split; [eapply nth_error_In; exact Hnth |]. split; [reflexivity |].
    apply Nat.mod_upper_bound. destruct (Cluster.hosts c); simpl; congruence.
Qed.

(** [get_host_fails_only_when_empty] on a pool of one host whose cursor is
    beyond the end. *)
Lemma get_host_fails_only_when_empty_witness :
  exists r, Cluster.get_host (Cluster.mk [URI.mk "http" "a" 1] 5) = Ok r.
Proof.
  apply (proj1 (proj2 (get_host_fails_only_when_empty
                         (Cluster.mk [URI.mk "http" "a" 1] 5)))).
  discriminate.
Defined.

Lemma list_remove_ok (u : URI.t) (l l' : list URI.t) :
  list_remove u l = Ok l' ->
  List.length l = S (List.length l') /\ In u l /\
  forall x, x <> u -> (In x l' <-> In x l).
Proof.
  revert l'; induction l as [| y l IH]; simpl; intros l'; [discriminate |].
  destruct (URI.__eq__ y u) eqn:E.
  - apply URI_eq_spec in E; subst y. intros [= <-].
    split; [reflexivity |]. split; [now left |].
    intros x Hx. split; [now right | intros [H | H]; [congruence | exact H]].
  - destruct (list_remove u l) as [r |] eqn:Er; simpl; [| discriminate].
    intros [= <-]. destruct (IH r eq_refl) as (Hlen & Hin & Hother).
    split; [simpl; now rewrite Hlen |]. split; [now right |].
    intros x Hx. simpl. now rewrite (Hother x Hx).
Qed.

Lemma list_remove_present (u : URI.t) (l : list URI.t) :
  In u l -> exists l', list_remove u l = Ok l'.
Proof.
  induction l as [| y l IH]; simpl; [tauto |].
  destruct (URI.__eq__ y u) eqn:E; [eauto |].
  intros [H | H]; [apply URI_eq_false in E; congruence |].
  destruct (IH H) as [l' ->]. simpl. eauto.
Qed.

(** X4. A [remove_host] that returns has taken one host out: the pool is one
    shorter, the URI was in it, every host different from the URI is in the
    pool afterwards exactly when it was before, and the cursor has not
    moved. *)
Theorem remove_host_takes_one (c c' : Cluster.t) (u : URI.t) :
  Cluster.remove_host c u = Ok c' ->
  List.length (Cluster.hosts c) = S (List.length (Cluster.hosts c')) /\
  In u (Cluster.hosts c) /\
  (forall x, x <> u -> (In x (Cluster.hosts c') <-> In x (Cluster.hosts c))) /\
  Cluster.__next_index c' = Cluster.__next_index c.
Proof.
  unfold Cluster.remove_host.
  destruct (list_remove u (Cluster.hosts c)) as [l' |] eqn:E; simpl; [| discriminate].
  intros [= <-]. simpl.
  destruct (list_remove_ok _ _ _ E) as (H1 & H2 & H3). auto.
Qed.

(** [remove_host_takes_one] on a pool of two hosts. *)
Lemma remove_host_takes_one_witness :
  List.length [URI.mk "http" "a" 1; URI.mk "http" "b" 2] = 2%nat /\
  In (URI.mk "http" "a" 1) [URI.mk "http" "a" 1; URI.mk "http" "b" 2] /\
  (forall x, x <> URI.mk "http" "a" 1 ->
             (In x [URI.mk "http" "b" 2] <->
              In x [URI.mk "http" "a" 1; URI.mk "http" "b" 2])) /\
  1%nat = 1%nat.
Proof.
  apply (remove_host_takes_one
           (Cluster.mk [URI.mk "http" "a" 1; URI.mk "http" "b" 2] 1)
           (Cluster.mk [URI.mk "http" "b" 2] 1) (URI.mk "http" "a" 1)).
  reflexivity.
Defined.

(** X5. A host that was added can be removed: [remove_host] after
    [add_host] of the same URI returns and the pool has the size it had
    before the two calls.  When the URI was not in the pool before, the two
    calls give back the pool as it was. *)
Theorem add_host_then_remove_host (c : Cluster.t) (u : URI.t) :
  (exists c' : Cluster.t,
      Cluster.remove_host (Cluster.add_host c u) u = Ok c' /\
      List.length (Cluster.hosts c') = List.length (Cluster.hosts c)) /\
  (~ In u (Cluster.hosts c) ->
   Cluster.remove_host (Cluster.add_host c u) u = Ok c).
Proof.
  split.
  - destruct (list_remove_present u (Cluster.hosts c ++ [u])) as [l' Hl'].
    { apply in_or_app. right. now left. }
    exists (Cluster.mk l' (Cluster.__next_index c)).
    unfold Cluster.remove_host, Cluster.add_host; simpl. rewrite Hl'.
    split; [reflexivity |]. simpl.
    destruct (list_remove_ok _ _ _ Hl') as (Hlen & _).
    rewrite length_app in Hlen. simpl in Hlen. lia.
  - intros Hn. unfold Cluster.remove_host, Cluster.add_host; simpl.
    rewrite (list_remove_first u (Cluster.hosts c) [] Hn), app_nil_r.
    destruct c; reflexivity.
Qed.

(** [add_host_then_remove_host] on a pool that does not hold the URI. *)
Lemma add_host_then_remove_host_witness :
  Cluster.remove_host
    (Cluster.add_host (Cluster.mk [URI.mk "http" "a" 1] 0) (URI.mk "http" "b" 2))
    (URI.mk "http" "b" 2) = Ok (Cluster.mk [URI.mk "http" "a" 1] 0).
Proof.
  apply (proj2 (add_host_then_remove_host (Cluster.mk [URI.mk "http" "a" 1] 0)
                  (URI.mk "http" "b" 2))).
  simpl. intros [H | []]. discriminate.
Defined.

(** ** More on URIs *)

Lemma str_index_split (s : string) (c : ascii) (i : nat) :
  str_index s c = Ok i ->
  exists suf, s = substring 0 i s ++ String c suf /\
              str_index (substring 0 i s) c = Raise ValueError.
Proof.
  revert i; induction s as [| a s IH]; simpl; intros i; [discriminate |].
  destruct (Ascii.eqb_spec a c) as [-> | Hne].
  - intros [= <-]. exists s. simpl. auto.
  - destruct (str_index s c) as [j |] eqn:E; simpl; [| discriminate].
    intros [= <-]. destruct (IH j eq_refl) as (suf & Hs & Hpre).
    exists suf. simpl. rewrite <- Hs.
    destruct (Ascii.eqb_spec a c); [contradiction |].
    rewrite Hpre. auto.
Qed.


Lemma string_all_app (cls : ascii -> bool) (a b : string) :
  string_all cls (a ++ b) = string_all cls a && string_all cls b.
Proof.
  induction a as [| c a IH]; simpl; [reflexivity |].
  now rewrite IH, andb_assoc.
Qed.

Lemma string_all_impl (cls cls' : ascii -> bool) (s : string) :
  (forall c, cls c = true -> cls' c = true) ->
  string_all cls s = true -> string_all cls' s = true.
Proof.
  intros H. induction s as [| c s IH]; simpl; [reflexivity |].
  rewrite !andb_true_iff. intros [Hc Hs]. auto.
Qed.

Lemma strip_prefix_some (p s s' : string) :
  strip_prefix p s = Some s' -> s = p ++ s'.
Proof.
  revert s; induction p as [| a p IH]; simpl; intros s.
  - now intros [= ->].
  - destruct s as [| b s]; [discriminate |].
    destruct (Ascii.eqb_spec a b) as [-> | _]; [| discriminate].
    intros H. now rewrite (IH _ H).
Qed.

Lemma digit_char_uint (c : ascii) (d : Decimal.uint) :
  digit_char c = true -> exists d', uint_of_char c (Some d) = Some d'.
Proof.
  destruct c as [[] [] [] [] [] [] [] []]; intros H; try discriminate H;
    simpl; eauto.
Qed.

Lemma py_int_digits (s : string) :
  s <> "" -> string_all digit_char s = true ->
  ((String.length s <= int_max_str_digits)%nat ->
   exists p, py_int s = Ok p /\ 0 <= p) /\
  ((int_max_str_digits < String.length s)%nat -> py_int s = Raise ValueError).
Proof.
  intros Hne Hall.
  assert (E : exists d, NilEmpty.uint_of_string s = Some d).
  { clear Hne. induction s as [| c s IH]; simpl in *; [eauto |].
    apply andb_true_iff in Hall as [Hc Hs].
    destruct (IH Hs) as [d ->]. exact (digit_char_uint c d Hc). }
  destruct E as [d Hd]. unfold py_int. destruct s as [| c s]; [congruence |].
  split; intros Hlen.
  - rewrite (proj2 (Nat.ltb_ge _ _) Hlen), Hd. exists (Z.of_uint d).
    split; [reflexivity |]. unfold Z.of_uint. lia.
  - now rewrite (proj2 (Nat.ltb_lt _ _) Hlen).
Qed.

Lemma plus_match_stops (cls : ascii -> bool) (pos : nat) (s : string)
    (caps : captures) (k : cont) :
  stops cls s = true -> plus_match cls pos s caps k = None.
Proof.
  destruct s as [| c s]; simpl; [reflexivity |].
  now destruct (cls c).
Qed.

Lemma tail_cases (tail : string) (P : string -> Prop) :
  tail = "" \/ tail = nl -> P "" -> P nl -> P tail.
Proof. intros [-> | ->]; auto. Qed.

(** The port part of the pattern on [[:digits]] and the end of the text. *)
Lemma port_part_match (port : option string) (tail : string) (pos : nat)
    (caps : captures) :
  part_ok digit_char port -> tail = "" \/ tail = nl ->
  exists m : captures,
    match_re (Seq (Opt (Group 4 (Seq (Lit ":") (Group 5 (Plus digit_char))))) Eol)
      pos (address_text None None port tail) caps done = Some m /\
    m 2%nat = caps 2%nat /\ m 3%nat = caps 3%nat /\
    m 5%nat = match port with Some d => Some d | None => caps 5%nat end.
Proof.
  intros Hport Htail. pattern tail. apply (tail_cases tail); [exact Htail | |];
    destruct port as [d |]; simpl address_text.
  - destruct Hport as [Hne Hall]. eexists. split.
    + cbn [match_re]. apply opt_first. simpl strip_prefix. cbv beta iota.
      apply plus_match_run; auto. reflexivity.
    + unfold set_group; simpl Nat.eqb; cbv iota. rewrite captured_prefix. auto.
  - eexists. split; [reflexivity | auto].
  - destruct Hport as [Hne Hall]. eexists. split.
    + cbn [match_re]. apply opt_first. simpl strip_prefix. cbv beta iota.
      apply plus_match_run; auto. reflexivity.
    + unfold set_group; simpl Nat.eqb; cbv iota. rewrite captured_prefix. auto.
  - eexists. split; [reflexivity | auto].
Qed.

Lemma port_text_stops (port : option string) (tail : string) :
  tail = "" \/ tail = nl ->
  stops host_char (address_text None None port tail) = true /\
  stops scheme_char (address_text None None port tail) = true.
Proof.
  intros Htail. pattern tail. apply (tail_cases tail); [exact Htail | |];
    destruct port; split; reflexivity.
Qed.

(** The host and port parts of the pattern. *)
Lemma host_part_match (host port : option string) (tail : string) (pos : nat)
    (caps : captures) :
  part_ok host_char host -> part_ok digit_char port -> tail = "" \/ tail = nl ->
  exists m : captures,
    match_re
      (Seq (Opt (Group 3 (Plus host_char)))
         (Seq (Opt (Group 4 (Seq (Lit ":") (Group 5 (Plus digit_char))))) Eol))
      pos (address_text None host port tail) caps done = Some m /\
    m 2%nat = caps 2%nat /\
    m 3%nat = match host with Some h => Some h | None => caps 3%nat end /\
    m 5%nat = match port with Some d => Some d | None => caps 5%nat end.
Proof.
  intros Hhost Hport Htail.
  destruct (port_text_stops port tail Htail) as [Hstop _].
  destruct host as [h |].
  - destruct Hhost as [Hne Hall].
    destruct (port_part_match port tail (pos + String.length h)
                (set_group 3 h caps) Hport Htail) as (m & Hm & H2 & H3 & H5).
    exists m. split; [| auto].
    change (address_text None (Some h) port tail)
      with (h ++ address_text None None port tail).
    cbn [match_re] in Hm |- *. apply opt_first.
    apply plus_match_run; auto.
    rewrite captured_prefix. exact Hm.
  - destruct (port_part_match port tail pos caps Hport Htail)
      as (m & Hm & H2 & H3 & H5).
    exists m. split; [| auto].
    cbn [match_re] in Hm |- *.
    rewrite plus_match_stops by exact Hstop. exact Hm.
Qed.

Lemma class_not_slash (cls : ascii -> bool) (s : string) :
  cls "/"%char = false -> string_all cls s = true -> string_all not_slash s = true.
Proof.
  intros Hcls. apply string_all_impl. intros c Hc. unfold not_slash.
  destruct (Ascii.eqb_spec c "/"); [subst; congruence | reflexivity].
Qed.

Lemma host_text_no_slash (host port : option string) (tail : string) :
  part_ok host_char host -> part_ok digit_char port -> tail = "" \/ tail = nl ->
  string_all not_slash (address_text None host port tail) = true.
Proof.
  intros Hhost Hport Htail.
  assert (Ht : string_all not_slash tail = true)
    by (destruct Htail as [-> | ->]; reflexivity).
  assert (Hp : string_all not_slash (address_text None None port tail) = true).
  { destruct port as [d |]; simpl; [| exact Ht].
    destruct Hport as [_ Hall]. rewrite string_all_app, Ht, andb_true_r.
    now apply (class_not_slash digit_char). }
  destruct host as [h |]; [| exact Hp].
  destruct Hhost as [_ Hall].
  change (address_text None (Some h) port tail)
    with (h ++ address_text None None port tail).
  rewrite string_all_app, Hp, andb_true_r.
  now apply (class_not_slash host_char).
Qed.

(** The pattern on a text of the grammar: the groups 2, 3 and 5 hold the
    parts that are given. *)
Lemma pattern_match_text (scheme host port : option string) (tail : string) :
  part_ok scheme_char scheme -> part_ok host_char host -> part_ok digit_char port ->
  tail = "" \/ tail = nl ->
  exists m : captures,
    search URI.__PATTERN (address_text scheme host port tail) = Some m /\
    m 2%nat = scheme /\ m 3%nat = host /\ m 5%nat = port.
Proof.
  intros Hscheme Hhost Hport Htail.
  unfold URI.__PATTERN. rewrite search_anchored.
  destruct scheme as [s |].
  - destruct Hscheme as [Hne Hall].
    change (address_text (Some s) host port tail)
      with (s ++ "://" ++ address_text None host port tail).
    set (text := s ++ "://" ++ address_text None host port tail).
    destruct (host_part_match host port tail (0 + String.length s + String.length "://")
                (set_group 1
                   (substring 0 (0 + String.length s + String.length "://" - 0) text)
                   (set_group 2 s no_captures))
                Hhost Hport Htail) as (m & Hm & H2 & H3 & H5).
    exists m. split.
    + cbn [match_re] in Hm |- *. apply opt_first. subst text.
      apply plus_match_run; auto.
      simpl strip_prefix. cbv beta iota. rewrite captured_prefix. exact Hm.
    + rewrite H2, H3, H5. unfold set_group; simpl.
      destruct host, port; auto.
  - destruct (host_part_match host port tail 0 no_captures Hhost Hport Htail)
      as (m & Hm & H2 & H3 & H5).
    exists m. split.
    + cbn [match_re] in Hm |- *.
      match goal with
      | |- match ?x with Some a => Some a | None => _ end = _ =>
          destruct x as [m' |] eqn:E
      end; [exfalso | exact Hm].
      apply plus_match_inv in E. destruct E as (s1 & s2 & Htext & _ & _ & E).
      destruct (strip_prefix "://" s2) as [s' |] eqn:Es; [| discriminate].
      apply strip_prefix_some in Es. subst s2.
      pose proof (host_text_no_slash host port tail Hhost Hport Htail) as Hns.
      rewrite Htext, string_all_app in Hns. simpl in Hns.
      rewrite andb_false_r in Hns. discriminate.
    + rewrite H2, H3, H5. unfold no_captures. destruct host, port; auto.
Qed.

(** On a text of the grammar [address] does what [address_value] says. *)
Lemma address_on_grammar (scheme host port : option string) (tail : string) :
  part_ok scheme_char scheme -> part_ok host_char host -> part_ok digit_char port ->
  tail = "" \/ tail = nl ->
  URI.address (address_text scheme host port tail) = address_value scheme host port.
Proof.
  intros Hscheme Hhost Hport Htail.
  destruct (pattern_match_text scheme host port tail Hscheme Hhost Hport Htail)
    as (m & Hm & H2 & H3 & H5).
  unfold URI.address, URI._parse, address_value. rewrite Hm, H2, H3, H5.
  destruct scheme as [s |]; [destruct Hscheme as [Hs _] |];
    (destruct host as [h |]; [destruct Hhost as [Hh _] |]);
    (destruct port as [d |]; [destruct Hport as [Hd _] |]);
    rewrite ?present_nonempty by assumption; reflexivity.
Qed.

(** X7. Every part of an address is optional.  For a scheme over [[+a-z]],
    a host over [[0-9a-z.-]] and a port of decimal digits, each of them
    given or left out, [address] finds the parts of the text
    [[[scheme://]host][:port]], and one newline after the text changes
    nothing.  When the port is left out or has at most 4300 digits, the
    call returns the URI of the parts that are given, with [http],
    [localhost] and 10101 for the parts that are left out.  When the port
    has more than 4300 digits, the call raises the [ValueError] of
    [int]. *)
Theorem address_accepts_grammar (scheme host port : option string) (tail : string) :
  part_ok scheme_char scheme -> part_ok host_char host -> part_ok digit_char port ->
  tail = "" \/ tail = nl ->
  URI.address (address_text scheme host port tail) = address_value scheme host port /\
  (port_within_limit port ->
   exists p : Z,
     0 <= p /\
     (forall digits, port = Some digits -> py_int digits = Ok p) /\
     (port = None -> p = 10101) /\
     URI.address (address_text scheme host port tail) =
       Ok (URI.mk (match scheme with Some s => s | None => "http" end)
             (match host with Some h => h | None => "localhost" end) p)) /\
  (~ port_within_limit port ->
   URI.address (address_text scheme host port tail) = Raise ValueError).
Proof.
  intros Hscheme Hhost Hport Htail.
  rewrite (address_on_grammar scheme host port tail Hscheme Hhost Hport Htail).
  split; [reflexivity |].
  unfold address_value, port_within_limit. destruct port as [d |].
  - destruct Hport as [Hne Hall].
    destruct (py_int_digits d Hne Hall) as [Hin Hout]. split.
    + intros Hlen. destruct (Hin Hlen) as (p & Hp & Hpos).
      exists p. rewrite Hp. split; [exact Hpos |].
      split; [now intros digits [= <-] |]. split; [discriminate | reflexivity].
    + intros Hlen. rewrite Hout by lia. reflexivity.
  - split; [| tauto]. intros _. exists 10101.
    split; [lia |]. split; [discriminate |]. split; reflexivity.
Qed.

(** A port of 4300 digits is converted, a port of 4301 digits is not. *)
Example address_port_digits :
  (exists u, URI.address (":" ++ repeat_char "1" 4300) = Ok u) /\
  URI.address (":" ++ repeat_char "1" 4301) = Raise ValueError /\
  URI.address (":" ++ repeat_char "0" 4301) = Raise ValueError.
Proof.
  split; [| split; vm_compute; reflexivity].
  destruct (URI.address (":" ++ repeat_char "1" 4300)) as [u | e] eqn:E; [eauto |].
  exfalso. revert E. vm_compute. discriminate.
Qed.

(** [address_accepts_grammar] on a host alone, with a newline after it. *)
Lemma address_accepts_grammar_witness :
  URI.address (address_text None (Some "db1.pilosa.com") None nl) =
    Ok (URI.mk "http" "db1.pilosa.com" 10101).
Proof.
  destruct (address_accepts_grammar None (Some "db1.pilosa.com") None nl)
    as (_ & Hin & _).
  - exact I.
  - split; [discriminate | reflexivity].
  - exact I.
  - right. reflexivity.
  - destruct (Hin I) as (p & _ & _ & Hp & Haddr).
    rewrite Haddr, (Hp eq_refl). reflexivity.
Defined.

Lemma eol_inv (s : string) :
  String.eqb s "" || String.eqb s (String "010" "") = true -> s = "" \/ s = nl.
Proof.
  intros H. apply orb_true_iff in H.
  destruct H as [H | H]; apply String.eqb_eq in H; auto.
Qed.

Lemma port_part_inv (pos : nat) (s : string) (caps m : captures) :
  match_re (Seq (Opt (Group 4 (Seq (Lit ":") (Group 5 (Plus digit_char))))) Eol)
    pos s caps done = Some m ->
  exists (port : option string) (tail : string),
    part_ok digit_char port /\ (tail = "" \/ tail = nl) /\
    s = address_text None None port tail.
Proof.
  intros E. cbn [match_re] in E.
  apply opt_inv in E. destruct E as [E | E].
  - destruct (strip_prefix ":" s) as [s' |] eqn:Es; [| discriminate].
    apply strip_prefix_some in Es. subst s.
    apply plus_match_inv in E. destruct E as (s1 & s2 & -> & Hne & Hall & E).
    destruct (String.eqb s2 "" || String.eqb s2 (String "010" "")) eqn:Eol;
      [| discriminate].
    exists (Some s1), s2. split; [split; assumption |].
    split; [now apply eol_inv | reflexivity].
  - destruct (String.eqb s "" || String.eqb s (String "010" "")) eqn:Eol;
      [| discriminate].
    exists None, s. split; [exact I |]. split; [now apply eol_inv | reflexivity].
Qed.

Lemma host_part_inv (pos : nat) (s : string) (caps m : captures) :
  match_re
    (Seq (Opt (Group 3 (Plus host_char)))
       (Seq (Opt (Group 4 (Seq (Lit ":") (Group 5 (Plus digit_char))))) Eol))
    pos s caps done = Some m ->
  exists (host port : option string) (tail : string),
    part_ok host_char host /\ part_ok digit_char port /\
    (tail = "" \/ tail = nl) /\ s = address_text None host port tail.
Proof.
  intros E. cbn [match_re] in E.
  apply opt_inv in E. destruct E as [E | E].
  - apply plus_match_inv in E. destruct E as (s1 & s2 & -> & Hne & Hall & E).
    destruct (port_part_inv _ _ _ _ E) as (port & tail & Hp & Ht & ->).
    exists (Some s1), port, tail. repeat split; auto.
  - destruct (port_part_inv _ _ _ _ E) as (port & tail & Hp & Ht & ->).
    exists None, port, tail. repeat split; auto.
Qed.

Lemma pattern_inv (text : string) (m : captures) :
  search URI.__PATTERN text = Some m ->
  exists (scheme host port : option string) (tail : string),
    part_ok scheme_char scheme /\ part_ok host_char host /\
    part_ok digit_char port /\ (tail = "" \/ tail = nl) /\
    text = address_text scheme host port tail.
Proof.
  unfold URI.__PATTERN. rewrite search_anchored. intros E.
  cbn [match_re] in E.
  apply opt_inv in E. destruct E as [E | E].
  - apply plus_match_inv in E. destruct E as (s1 & s2 & -> & Hne & Hall & E).
    destruct (strip_prefix "://" s2) as [s' |] eqn:Es; [| discriminate].
    apply strip_prefix_some in Es. subst s2.
    destruct (host_part_inv _ _ _ _ E) as (host & port & tail & Hh & Hp & Ht & ->).
    exists (Some s1), host, port, tail. repeat split; auto.
  - destruct (host_part_inv _ _ _ _ E) as (host & port & tail & Hh & Hp & Ht & ->).
    exists None, host, port, tail. repeat split; auto.
Qed.

(** X8. [address] returns only for a text of the grammar: a call that
    returns was given a text [[[scheme://]host][:port]], possibly with one
    newline after it, whose parts are within their classes and whose port,
    if any, has at most 4300 digits.  A call that raises either raises
    [PilosaURIError], or it raises the [ValueError] of [int] and was given
    a text of the grammar whose port has more than 4300 digits. *)
Theorem address_rejects_outside_grammar (text : string) :
  (forall u : URI.t,
      URI.address text = Ok u ->
      exists (scheme host port : option string) (tail : string),
        part_ok scheme_char scheme /\ part_ok host_char host /\
        part_ok digit_char port /\ port_within_limit port /\
        (tail = "" \/ tail = nl) /\
        text = address_text scheme host port tail) /\
  (forall e : exn,
      URI.address text = Raise e ->
      e = PilosaURIError "Not a Pilosa URI" \/
      (e = ValueError /\
       exists (scheme host : option string) (digits tail : string),
         part_ok scheme_char scheme /\ part_ok host_char host /\
         part_ok digit_char (Some digits) /\
         (int_max_str_digits < String.length digits)%nat /\
         (tail = "" \/ tail = nl) /\
         text = address_text scheme host (Some digits) tail)).
Proof.
  destruct (search URI.__PATTERN text) as [m |] eqn:E.
  - destruct (pattern_inv text m E)
      as (scheme & host & port & tail & Hs & Hh & Hp & Ht & Htext).
    pose proof (address_on_grammar scheme host port tail Hs Hh Hp Ht) as Haddr.
    rewrite <- Htext in Haddr. rewrite Haddr. unfold address_value.
    destruct port as [d |].
    + destruct Hp as [Hne Hall].
      destruct (py_int_digits d Hne Hall) as [Hin Hout].
      destruct (Nat.le_gt_cases (String.length d) int_max_str_digits) as [Hlen | Hlen].
      * destruct (Hin Hlen) as (p & Hp & _). rewrite Hp. simpl. split.
        -- intros u _. exists scheme, host, (Some d), tail.
           repeat split; auto.
        -- discriminate.
      * rewrite (Hout Hlen). simpl. split; [discriminate |].
        intros e [= <-]. right. split; [reflexivity |].
        exists scheme, host, d, tail. repeat split; auto.
    + split; [| discriminate].
      intros u _. exists scheme, host, None, tail. repeat split; auto.
  - unfold URI.address, URI._parse. rewrite E.
    split; [discriminate | intros e [= <-]; now left].
Qed.

(** [address_rejects_outside_grammar] on a text that is accepted. *)
Lemma address_rejects_outside_grammar_witness :
  exists (scheme host port : option string) (tail : string),
    part_ok scheme_char scheme /\ part_ok host_char host /\
    part_ok digit_char port /\ port_within_limit port /\
    (tail = "" \/ tail = nl) /\
    "http+tls://10.0.0.1:9999" = address_text scheme host port tail.
Proof.
  apply (proj1 (address_rejects_outside_grammar "http+tls://10.0.0.1:9999")
           (URI.mk "http+tls" "10.0.0.1" 9999)).
  vm_compute. reflexivity.
Defined.

Lemma string_all_prefix (cls : ascii -> bool) (s : string) (i : nat) :
  string_all cls s = true -> string_all cls (substring 0 i s) = true.
Proof.
  revert i; induction s as [| c s IH]; intros [| i]; simpl; auto.
  rewrite !andb_true_iff. intros [Hc Hs]. auto.
Qed.

(** X9. For a URI of the grammar whose scheme does not begin with [+], the
    normalized text is again an address: [address] reads it back as the
    URI with the scheme cut at its first [+] and the same host and port,
    and normalizing that URI gives the same text again. *)
Theorem address_of_normalize (u : URI.t) :
  in_grammar u ->
  str_index (URI.scheme u) "+" <> Ok 0%nat ->
  exists pre : string,
    URI.address (URI.normalize u) = Ok (URI.mk pre (URI.host u) (URI.port u)) /\
    URI.normalize (URI.mk pre (URI.host u) (URI.port u)) = URI.normalize u /\
    str_index pre "+" = Raise ValueError.
Proof.
  intros (Hs1 & Hs2 & Hh1 & Hh2 & Hp) Hplus.
  assert (E : exists pre : string,
             URI.normalize u = URI.__str__ (URI.mk pre (URI.host u) (URI.port u)) /\
             pre <> "" /\ string_all scheme_char pre = true /\
             str_index pre "+" = Raise ValueError).
  { unfold URI.normalize, URI.__str__; simpl.
    destruct (str_index (URI.scheme u) "+") as [i | e] eqn:Ei.
    - exists (substring 0 i (URI.scheme u)).
      destruct (str_index_split _ _ _ Ei) as (suf & Hsplit & Hpre).
      split; [reflexivity |].
      split; [| split; [now apply string_all_prefix | exact Hpre]].
      destruct i as [| i]; [congruence |].
      destruct (URI.scheme u); [congruence | discriminate].
    - exists (URI.scheme u). rewrite (str_index_error _ _ _ Ei) in Ei. auto. }
  destruct E as (pre & Hn & Hne & Hall & Hpre).
  exists pre. split; [| split; [| exact Hpre]].
  - rewrite Hn. apply address_of_str. unfold in_grammar; simpl. auto.
  - rewrite Hn. now apply normalize_plain.
Qed.

(** [address_of_normalize] on a composite scheme. *)
Lemma address_of_normalize_witness :
  exists pre : string,
    URI.address (URI.normalize (URI.mk "http+tls" "10.0.0.1" 9999)) =
      Ok (URI.mk pre "10.0.0.1" 9999) /\
    URI.normalize (URI.mk pre "10.0.0.1" 9999) =
      URI.normalize (URI.mk "http+tls" "10.0.0.1" 9999) /\
    str_index pre "+" = Raise ValueError.
Proof.
  apply (address_of_normalize (URI.mk "http+tls" "10.0.0.1" 9999)).
  - unfold in_grammar; simpl. repeat split; try discriminate.
    change (String.length (py_str 9999)) with 4%nat.
    unfold int_max_str_digits. lia.
  - discriminate.
Defined.

(** ** More on the response model *)

Lemma mapR_Forall2 {A B} (f : A -> result B) (xs : list A) (ys : list B) :
  mapR f xs = Ok ys -> Forall2 (fun x y => f x = Ok y) xs ys.
Proof.
  revert ys; induction xs as [| x xs IH]; simpl; intros ys.
  - intros [= <-]. constructor.
  - destruct (f x) as [y |] eqn:Ex; simpl; [| discriminate].
    destruct (mapR f xs) as [ys' |]; simpl; [| discriminate].
    intros [= <-]. constructor; auto.
Qed.

Lemma mapR_first_error {A B} (f : A -> result B) (xs : list A) (e : exn) :
  mapR f xs = Raise e ->
  exists (before : list A) (x : A) (after : list A),
    xs = (before ++ x :: after)%list /\
    Forall (fun a => exists b, f a = Ok b) before /\ f x = Raise e.
Proof.
  induction xs as [| x xs IH]; simpl; [discriminate |].
  destruct (f x) as [y |] eqn:Ex; simpl.
  - destruct (mapR f xs) as [ys |]; simpl; [discriminate |].
    intros [= <-]. destruct (IH eq_refl) as (before & x' & after & -> & Hb & Hx).
    exists (x :: before), x', after. repeat split; auto.
    constructor; eauto.
  - intros [= <-]. exists [], x, xs. repeat split; auto.
Qed.

(** X10. Decoding a result item fails only through a count item.  An item
    that is not an array always decodes; null, a string and a float decode
    to the result with no bitmap, no count items and count 0.  When an
    array fails to decode, the error is the one its first bad element
    gives ([KeyError] for an object without [id] or [count], [TypeError]
    for an element that is not an object), and the elements before it are
    well formed. *)
Theorem from_item_fails_only_in_count_items (item : json) :
  ((forall xs, item <> JList xs) -> exists q, QueryResult.from_item item = Ok q) /\
  (item = JNull \/ (exists s, item = JStr s) \/ (exists f, item = JFloat f) ->
   QueryResult.from_item item =
     Ok (QueryResult.mk (BitmapResult.mk (JList []) (JDict [])) [] (JInt 0))) /\
  (forall e : exn,
      QueryResult.from_item item = Raise e ->
      exists (before : list json) (x : json) (after : list json),
        item = JList (before ++ x :: after) /\
        Forall (fun a => exists c, CountResultItem.from_dict a = Ok c) before /\
        CountResultItem.from_dict x = Raise e /\
        (e = KeyError "id" \/ e = KeyError "count" \/ e = TypeError)).
Proof.
  split; [| split].
  - intros Hnl. apply from_item_total. destruct item; simpl; auto.
    now destruct (Hnl xs).
  - intros [-> | [[s ->] | [f ->]]]; reflexivity.
  - intros e. destruct item; simpl; try discriminate.
    + destruct (mapR CountResultItem.from_dict xs) as [cs |] eqn:E; simpl;
        [discriminate |].
      intros [= <-].
      destruct (mapR_first_error _ _ _ E) as (before & x & after & -> & Hb & Hx).
      exists before, x, after. repeat split; auto.
      unfold CountResultItem.from_dict, py_getitem in Hx.
      destruct x; simpl in Hx; try (injection Hx as <-; auto).
      destruct (dict_lookup kvs "id"); simpl in Hx; [| injection Hx as <-; auto].
      destruct (dict_lookup kvs "count"); simpl in Hx; [discriminate |].
      injection Hx as <-; auto.
    + unfold BitmapResult.from_dict, py_get.
      destruct (dict_lookup kvs "bits"), (dict_lookup kvs "attrs"); discriminate.
Qed.

(** [from_item_fails_only_in_count_items] on a count item without
    [count]. *)
Lemma from_item_fails_only_in_count_items_witness :
  exists (before : list json) (x : json) (after : list json),
    JList [JDict [("id", JInt 1); ("count", JInt 2)]; JDict [("id", JInt 3)]] =
      JList (before ++ x :: after) /\
    Forall (fun a => exists c, CountResultItem.from_dict a = Ok c) before /\
    CountResultItem.from_dict x = Raise (KeyError "count") /\
    (KeyError "count" = KeyError "id" \/ KeyError "count" = KeyError "count" \/
     KeyError "count" = TypeError).
Proof.
  apply (proj2 (proj2 (from_item_fails_only_in_count_items
           (JList [JDict [("id", JInt 1); ("count", JInt 2)]; JDict [("id", JInt 3)]])))).
  reflexivity.
Defined.

(** X11. A bitmap read from an object never holds an empty or null value in
    [bits] or [attributes]: a value that Python takes for false (null,
    [false], 0, the empty string, array or object) is replaced by the
    empty list, respectively the empty map; any other value is kept as it
    is.  So [bits] is the empty list or true in Python's sense, and
    likewise [attributes]. *)
Theorem bitmap_replaces_false_values (kvs : list (string * json)) :
  exists b : BitmapResult.t,
    BitmapResult.from_dict (JDict kvs) = Ok b /\
    (forall v, dict_lookup kvs "bits" = Some v -> truthy v = false ->
               BitmapResult.bits b = JList []) /\
    (forall v, dict_lookup kvs "attrs" = Some v -> truthy v = false ->
               BitmapResult.attributes b = JDict []) /\
    (BitmapResult.bits b = JList [] \/ truthy (BitmapResult.bits b) = true) /\
    (BitmapResult.attributes b = JDict [] \/
     truthy (BitmapResult.attributes b) = true).
Proof.
  unfold BitmapResult.from_dict, py_get, BitmapResult.__init__, py_or.
  destruct (dict_lookup kvs "bits") as [vb |], (dict_lookup kvs "attrs") as [va |];
    simpl; eexists; (split; [reflexivity |]); simpl;
    repeat split; try discriminate;
    try (intros v [= <-] Hv; now rewrite Hv);
    try (destruct (truthy vb) eqn:E; auto);
    try (destruct (truthy va) eqn:E'; auto); auto.
Qed.

(** [bitmap_replaces_false_values] on an object whose [bits] is null. *)
Lemma bitmap_replaces_false_values_witness :
  exists b : BitmapResult.t,
    BitmapResult.from_dict (JDict [("bits", JNull); ("attrs", JInt 0)]) = Ok b /\
    BitmapResult.bits b = JList [] /\ BitmapResult.attributes b = JDict [].
Proof.
  destruct (bitmap_replaces_false_values [("bits", JNull); ("attrs", JInt 0)])
    as (b & Hb & Hbits & Hattrs & _).
  exists b. split; [exact Hb |]. split.
  - apply (Hbits JNull); reflexivity.
  - apply (Hattrs (JInt 0)); reflexivity.
Defined.

(** X12. A decoded response holds one result for each element of [results]
    and one profile for each element of [profiles], in the order of the
    body, each the decoding of its element; a key that is absent gives the
    empty list.  The properties [result] and [profile] give the first
    result and the first profile, and nothing when there is none. *)
Theorem from_dict_elementwise (kvs : list (string * json)) (resp : QueryResponse.t) :
  QueryResponse.from_dict (JDict kvs) = Ok resp ->
  (forall rs, dict_lookup kvs "results" = Some (JList rs) ->
              Forall2 (fun r q => QueryResult.from_item r = Ok q)
                rs (QueryResponse.results resp)) /\
  (dict_lookup kvs "results" = None -> QueryResponse.results resp = []) /\
  (forall ps, dict_lookup kvs "profiles" = Some (JList ps) ->
              Forall2 (fun p q => ProfileItem.from_dict p = Ok q)
                ps (QueryResponse.profiles resp)) /\
  (dict_lookup kvs "profiles" = None -> QueryResponse.profiles resp = []) /\
  QueryResponse.result resp = hd_error (QueryResponse.results resp) /\
  QueryResponse.profile resp = hd_error (QueryResponse.profiles resp).
Proof.
  unfold QueryResponse.from_dict, py_get.
  destruct (match dict_lookup kvs "results" with
            | Some v => Ok v | None => Ok (JList []) end) as [rv |] eqn:Erv;
    simpl; [| discriminate].
  destruct (py_iter rv) as [rs' |] eqn:Eit; simpl; [| discriminate].
  destruct (mapR QueryResult.from_item rs') as [results |] eqn:Er; simpl;
    [| discriminate].
  destruct (match dict_lookup kvs "profiles" with
            | Some v => Ok v | None => Ok (JList []) end) as [pv |] eqn:Epv;
    simpl; [| discriminate].
  destruct (py_iter pv) as [ps' |] eqn:Eip; simpl; [| discriminate].
  destruct (mapR ProfileItem.from_dict ps') as [profiles |] eqn:Ep; simpl;
    [| discriminate].
  destruct (dict_lookup kvs "error"); simpl; intros [= <-]; simpl;
    (repeat split;
     [ intros rs Hrs; rewrite Hrs in Erv; injection Erv as <-;
       injection Eit as <-; now apply mapR_Forall2
     | intros Hrs; rewrite Hrs in Erv; injection Erv as <-;
       injection Eit as <-; now injection Er as <-
     | intros ps Hps; rewrite Hps in Epv; injection Epv as <-;
       injection Eip as <-; now apply mapR_Forall2
     | intros Hps; rewrite Hps in Epv; injection Epv as <-;
       injection Eip as <-; now injection Ep as <- ]).
Qed.

(** [from_dict_elementwise] on the body of a bitmap query with a profile. *)
Lemma from_dict_elementwise_witness :
  QueryResponse.result
    (QueryResponse.mk
       [QueryResult.mk (BitmapResult.mk (JList [JInt 20]) (JDict [])) [] (JInt 0)]
       [ProfileItem.mk (JInt 20) (JDict [("name", JStr "bombo")])] (JStr "")) =
  hd_error
    [QueryResult.mk (BitmapResult.mk (JList [JInt 20]) (JDict [])) [] (JInt 0)].
Proof.
  refine (proj1 (proj2 (proj2 (proj2 (proj2
    (from_dict_elementwise
       [("results", JList [JDict [("bits", JList [JInt 20]); ("attrs", JDict [])]]);
        ("profiles",
         JList [JDict [("id", JInt 20); ("attrs", JDict [("name", JStr "bombo")])]])]
       _ _)))))).
  reflexivity.
Defined.

(** X13. What [QueryResponse.from_dict] does with a body of the wrong kind.
    A body that is not an object raises [AttributeError].  An object whose
    [results] or [profiles] is present but null, a number or a boolean
    raises [TypeError], although the same object without the key
    decodes. *)
Theorem from_dict_wrong_kind :
  (forall d : json,
      (forall kvs, d <> JDict kvs) ->
      QueryResponse.from_dict d = Raise AttributeError) /\
  (forall (kvs : list (string * json)) (v : json),
      v = JNull \/ (exists b, v = JBool b) \/ (exists n, v = JInt n) \/
      (exists f, v = JFloat f) ->
      (dict_lookup kvs "results" = Some v ->
       QueryResponse.from_dict (JDict kvs) = Raise TypeError) /\
      (dict_lookup kvs "results" = None ->
       dict_lookup kvs "profiles" = Some v ->
       QueryResponse.from_dict (JDict kvs) = Raise TypeError)) /\
  (forall kvs : list (string * json),
      dict_lookup kvs "results" = None -> dict_lookup kvs "profiles" = None ->
      exists e, QueryResponse.from_dict (JDict kvs) = Ok (QueryResponse.mk [] [] e)).
Proof.
  split; [| split].
  - intros d Hd. destruct d; try reflexivity. now destruct (Hd kvs).
  - intros kvs v Hv. split.
    + intros Hr. unfold QueryResponse.from_dict, py_get. rewrite Hr.
      destruct Hv as [-> | [[b ->] | [[n ->] | [f ->]]]]; reflexivity.
    + intros Hr Hp. unfold QueryResponse.from_dict, py_get. rewrite Hr, Hp.
      destruct Hv as [-> | [[b ->] | [[n ->] | [f ->]]]]; reflexivity.
  - intros kvs Hr Hp. unfold QueryResponse.from_dict, py_get. rewrite Hr, Hp.
    simpl. destruct (dict_lookup kvs "error"); simpl; eauto.
Qed.

(** [from_dict_wrong_kind] on a body whose [results] is null. *)
Lemma from_dict_wrong_kind_witness :
  QueryResponse.from_dict (JDict [("results", JNull)]) = Raise TypeError.
Proof.
  apply (proj1 (proj1 (proj2 from_dict_wrong_kind) [("results", JNull)] JNull
                  (or_introl eq_refl))).
  reflexivity.
Defined.

(** ** More on the client *)

(** X14. A client can only be built over a pool with a host.  Over an empty
    pool [Client(cluster)] raises [There are no available hosts]; over any
    other pool it returns a client whose current host is the host at the
    cursor of the pool, with the hosts unchanged and the cursor moved on by
    one; without an argument the client gets a pool of its own that holds
    the default URI. *)
Theorem client_init_needs_a_host :
  (forall c : Cluster.t,
      Cluster.hosts c = [] ->
      Client.__init__ (Some c) =
        Raise (PilosaError [JStr "There are no available hosts"])) /\
  (forall c : Cluster.t,
      Cluster.hosts c <> [] ->
      exists client : Client.t,
        Client.__init__ (Some c) = Ok client /\
        nth_error (Cluster.hosts c)
          (Cluster.__next_index c mod List.length (Cluster.hosts c)) =
          Some (Client.__current_host client) /\
        Client.cluster client =
          Cluster.mk (Cluster.hosts c)
            ((Cluster.__next_index c + 1) mod List.length (Cluster.hosts c))) /\
  Client.__init__ None = Ok (Client.mk (Cluster.mk [URI.init] 0) URI.init).
Proof.
  split; [| split].
  - intros c Hc. unfold Client.__init__, Cluster.get_host. rewrite Hc. reflexivity.
  - intros c Hc. destruct (get_host_nonempty c Hc) as (h & Hnth & Hget).
    unfold Client.__init__. rewrite Hget. simpl. eauto.
  - reflexivity.
Qed.

(** [client_init_needs_a_host] on a pool of two hosts with the cursor at 1. *)
Lemma client_init_needs_a_host_witness :
  exists client : Client.t,
    Client.__init__
      (Some (Cluster.mk [URI.mk "http" "a" 1; URI.mk "http" "b" 2] 1)) = Ok client /\
    nth_error [URI.mk "http" "a" 1; URI.mk "http" "b" 2] (1 mod 2) =
      Some (Client.__current_host client) /\
    Client.cluster client =
      Cluster.mk [URI.mk "http" "a" 1; URI.mk "http" "b" 2] ((1 + 1) mod 2).
Proof.
  apply (proj1 (proj2 client_init_needs_a_host)
           (Cluster.mk [URI.mk "http" "a" 1; URI.mk "http" "b" 2] 1)).
  discriminate.
Defined.

Section ClientMore.
Variable version : string.
Variable respond : list request -> request -> outcome.

Local Abbreviation http_request := (Client.__http_request version respond).
Local Abbreviation HEADERS := (Client.__HEADERS version).
Local Abbreviation query := (Client.query version respond).
Local Abbreviation create_database := (Client.create_database version respond).
Local Abbreviation delete_database := (Client.delete_database version respond).
Local Abbreviation create_frame := (Client.create_frame version respond).
Local Abbreviation delete_frame := (Client.delete_frame version respond).
Local Abbreviation ensure_database := (Client.ensure_database version respond).
Local Abbreviation ensure_frame := (Client.ensure_frame version respond).

Lemma http_request_empty (self : Client.t) (wire : list request)
    (method : http_method) (path : string) (data : option string)
    (client_response : Z) :
  Cluster.hosts (Client.cluster self) = [] ->
  http_request self wire method path data client_response =
    (Raise (PilosaError [JStr "There are no available hosts"]), self, wire).
Proof.
  intros H. unfold Client.__http_request, Cluster.get_host. rewrite H. reflexivity.
Qed.

(** X15. With an empty pool nothing is sent.  Every operation of the client
    ([query], the four schema calls and the two ensure calls) raises
    [There are no available hosts], leaves the client as it is and sends
    no request. *)
Theorem empty_pool_sends_nothing (self : Client.t) (wire : list request)
    (q : Query.t) (profiles : bool) (database : Database.t) (frame : Frame.t) :
  Cluster.hosts (Client.cluster self) = [] ->
  let no_hosts := PilosaError [JStr "There are no available hosts"] in
  query self wire q profiles = (Raise no_hosts, self, wire) /\
  create_database self wire database = (Raise no_hosts, self, wire) /\
  delete_database self wire database = (Raise no_hosts, self, wire) /\
  create_frame self wire frame = (Raise no_hosts, self, wire) /\
  delete_frame self wire frame = (Raise no_hosts, self, wire) /\
  ensure_database self wire database = (Raise no_hosts, self, wire) /\
  ensure_frame self wire frame = (Raise no_hosts, self, wire).
Proof.
  intros H no_hosts.
  unfold Client.query, Client.ensure_database, Client.ensure_frame,
    Client.create_database, Client.delete_database, Client.create_frame,
    Client.delete_frame, Client.__create_or_delete_database,
    Client.__create_or_delete_frame.
  rewrite !(http_request_empty self wire) by exact H.
  repeat split.
Qed.







(** X17. Only a connection error changes the pool.  A request that ends in
    any other way (a response of any status, or another exception of
    [requests]) leaves the hosts as they are and moves the cursor on by
    one, so that the next request goes to the next host of the pool. *)
Theorem pool_changes_only_on_connection_error (self : Client.t)
    (wire : list request) (method : http_method) (path : string)
    (data : option string) (client_response : Z) :
  Cluster.hosts (Client.cluster self) <> [] ->
  (forall req msg, respond wire req <> ConnectionError msg) ->
  Client.cluster
    (snd (fst (http_request self wire method path data client_response))) =
    Cluster.mk (Cluster.hosts (Client.cluster self))
      ((Cluster.__next_index (Client.cluster self) + 1)
       mod List.length (Cluster.hosts (Client.cluster self))).
Proof.
  intros Hne Hresp. destruct (get_host_nonempty _ Hne) as (uri & _ & Hget).
  unfold Client.__http_request. rewrite Hget.
  destruct (respond wire _) as [r | msg | msg] eqn:E.
  - destruct (client_response =? Client.__RAW_RESPONSE); [reflexivity |].
    destruct ((200 <=? status_code r) && (status_code r <? 300)); [reflexivity |].
    destruct (Client.__RECOGNIZED_ERRORS (text r)); reflexivity.
  - now destruct (Hresp _ _ E).
  - reflexivity.
Qed.


(** X19. [query] does not look at the status or at the conflict messages: a
    response whose body is not JSON, whatever its status and text, makes
    [query] raise [ValueError], the error of [response.json()]. *)
Theorem query_body_not_json (self : Client.t) (wire : list request)
    (q : Query.t) (profiles : bool) (r : response) :
  Cluster.hosts (Client.cluster self) <> [] ->
  (forall req, respond wire req = Answered r) ->
  json_body r = None ->
  fst (fst (query self wire q profiles)) = Raise ValueError.
Proof.
  intros Hne Hr Hbody. destruct (get_host_nonempty _ Hne) as (uri & _ & Hget).
  unfold Client.query. unfold Client.__http_request. rewrite Hget, Hr.
  change (Client.__RAW_RESPONSE =? Client.__RAW_RESPONSE) with true. cbv iota.
  rewrite Hbody. reflexivity.
Qed.

(** X20. A response that [query] returns never carries an error message:
    its [error_message] is the empty string, since a body with the key
    [error] makes [query] raise. *)
Theorem query_returns_no_error_message (self : Client.t) (wire : list request)
    (q : Query.t) (profiles : bool) (resp : QueryResponse.t) :
  fst (fst (query self wire q profiles)) = Ok resp ->
  QueryResponse.error_message resp = JStr "".
Proof.
  unfold Client.query.
  destruct (http_request self wire post _ _ _) as [[[[r |] | e] s] w]; simpl;
    try discriminate.
  destruct (json_body r) as [body |]; simpl; [| discriminate].
  destruct body as [| b | n | f | text | xs | kvs]; simpl; try discriminate.
  - destruct (String.index 0 "error" text); discriminate.
  - destruct (existsb _ xs); simpl; discriminate.
  - destruct (dict_lookup kvs "error") as [e |] eqn:E; simpl; [discriminate |].
    unfold QueryResponse.from_dict, py_get. rewrite E.
    destruct (match dict_lookup kvs "results" with
              | Some v => Ok v | None => Ok (JList []) end) as [rv |]; simpl;
      [| discriminate].
    destruct (py_iter rv) as [rs |]; simpl; [| discriminate].
    destruct (mapR QueryResult.from_item rs) as [results |]; simpl;
      [| discriminate].
    destruct (match dict_lookup kvs "profiles" with
              | Some v => Ok v | None => Ok (JList []) end) as [pv |]; simpl;
      [| discriminate].
    destruct (py_iter pv) as [ps |]; simpl; [| discriminate].
    destruct (mapR ProfileItem.from_dict ps) as [profiles' |]; simpl;
      [| discriminate].
    now intros [= <-].
Qed.

(** X21. An ensure call swallows the conflict of its own kind only.  When
    the server answers [frame already exists] to [ensure_database], the
    call raises [FrameExistsError]; when it answers [database already
    exists] to [ensure_frame], the call raises [DatabaseExistsError]. *)
Theorem ensure_keeps_the_other_conflict (self : Client.t) (wire : list request)
    (database : Database.t) (frame : Frame.t) (r : response) :
  Cluster.hosts (Client.cluster self) <> [] ->
  (forall req, respond wire req = Answered r) ->
  ~ 200 <= status_code r < 300 ->
  (text r = "frame already exists" ++ nl ->
   fst (fst (ensure_database self wire database)) = Raise FrameExistsError) /\
  (text r = "database already exists" ++ nl ->
   fst (fst (ensure_frame self wire frame)) = Raise DatabaseExistsError).
Proof.
  intros Hne Hr H2xx. destruct (get_host_nonempty _ Hne) as (uri & _ & Hget).
  unfold Client.ensure_database, Client.ensure_frame, Client.create_database,
    Client.create_frame, Client.__create_or_delete_database,
    Client.__create_or_delete_frame.
  rewrite !(http_request_answered version respond _ _ _ _ _ _ uri _ r Hget (Hr _)).
  change (Client.__NO_RESPONSE =? Client.__RAW_RESPONSE) with false; cbv iota.
  rewrite (is_2xx_false r H2xx).
  split; intros ->; reflexivity.
Qed.
End ClientMore.

(** ** The further facts on concrete servers *)

(** [empty_pool_sends_nothing] on a client without hosts. *)
Lemma empty_pool_sends_nothing_witness :
  Client.query "1.0" (answers count_response) stranded_client [] example_query false =
    (Raise (PilosaError [JStr "There are no available hosts"]), stranded_client, []).
Proof.
  apply (proj1 (empty_pool_sends_nothing "1.0" (answers count_response)
                  stranded_client [] example_query false example_database
                  example_frame eq_refl)).
Defined.


(** [pool_changes_only_on_connection_error] on a conflict answer over two
    hosts. *)
Lemma pool_changes_only_on_connection_error_witness :
  Client.cluster
    (snd (fst (Client.__http_request "1.0" (answers conflict_response)
                 (Client.mk (Cluster.mk [URI.mk "http" "a" 1; URI.mk "http" "b" 2] 1)
                    (URI.mk "http" "a" 1))
                 [] post "/db" None Client.__NO_RESPONSE))) =
  Cluster.mk [URI.mk "http" "a" 1; URI.mk "http" "b" 2] ((1 + 1) mod 2).
Proof.
  apply (pool_changes_only_on_connection_error "1.0" (answers conflict_response)
           (Client.mk (Cluster.mk [URI.mk "http" "a" 1; URI.mk "http" "b" 2] 1)
              (URI.mk "http" "a" 1))
           [] post "/db" None Client.__NO_RESPONSE).
  - discriminate.
  - intros req msg. discriminate.
Defined.


(** [query_body_not_json] on a conflict answer, which is plain text. *)
Lemma query_body_not_json_witness :
  fst (fst (Client.query "1.0" (answers conflict_response) example_client []
              example_query false)) = Raise ValueError.
Proof.
  apply (query_body_not_json "1.0" (answers conflict_response) example_client []
           example_query false conflict_response).
  - discriminate.
  - intros req. reflexivity.
  - reflexivity.
Defined.

(** [query_returns_no_error_message] on the answer to a count query. *)
Lemma query_returns_no_error_message_witness :
  QueryResponse.error_message
    (QueryResponse.mk
       [QueryResult.mk (BitmapResult.mk (JList []) (JDict [])) [] (JInt 2)] []
       (JStr "")) = JStr "".
Proof.
  apply (query_returns_no_error_message "1.0" (answers count_response)
           example_client [] example_query false).
  reflexivity.
Defined.

(** [ensure_keeps_the_other_conflict] on a server that reports a frame
    conflict. *)
Lemma ensure_keeps_the_other_conflict_witness :
  fst (fst (Client.ensure_database "1.0" (answers frame_conflict_response)
              example_client [] example_database)) = Raise FrameExistsError.
Proof.
  refine (proj1 (ensure_keeps_the_other_conflict "1.0"
                   (answers frame_conflict_response) example_client []
                   example_database example_frame frame_conflict_response _ _ _) _).
  - discriminate.
  - intros req. reflexivity.
  - simpl. lia.
  - reflexivity.
Defined.

Section ClientBodies.
Variable version : string.
Variable respond : list request -> request -> outcome.

Local Abbreviation query := (Client.query version respond).
Local Abbreviation ensure_frame := (Client.ensure_frame version respond).

(** X22. [query] returns only for a body that is a JSON object.  A body that
    is an array, a string, a number, a boolean or null makes the call
    raise [TypeError] or [AttributeError], whatever the status: the test
    for the key [error] or, failing that, the decoder rejects it. *)
Theorem query_needs_an_object (self : Client.t) (wire : list request)
    (q : Query.t) (profiles : bool) (r : response) (body : json) :
  Cluster.hosts (Client.cluster self) <> [] ->
  (forall req, respond wire req = Answered r) ->
  json_body r = Some body ->
  (forall kvs, body <> JDict kvs) ->
  fst (fst (query self wire q profiles)) = Raise TypeError \/
  fst (fst (query self wire q profiles)) = Raise AttributeError.
Proof.
  intros Hne Hr Hbody Hnd. destruct (get_host_nonempty _ Hne) as (uri & _ & Hget).
  unfold Client.query.
  rewrite (http_request_answered version respond _ _ _ _ _ _ uri _ r Hget (Hr _)).
  change (Client.__RAW_RESPONSE =? Client.__RAW_RESPONSE) with true; cbv iota.
  rewrite Hbody.
  destruct body; simpl; auto.
  - destruct (match String.index 0 "error" s with Some _ => true | None => false end);
      auto.
  - destruct (existsb _ xs); auto.
  - now destruct (Hnd kvs).
Qed.

Lemma ensure_frame_returned (self self1 : Client.t) (wire wire1 : list request)
    (frame : Frame.t) :
  ensure_frame self wire frame = (Ok tt, self1, wire1) ->
  Cluster.hosts (Client.cluster self1) <> [].
Proof.
  unfold Client.ensure_frame, Client.create_frame,
    Client.__create_or_delete_frame, Client.__http_request.
  destruct (Cluster.get_host (Client.cluster self)) as [[uri c] | e] eqn:Hget.
  - destruct (get_host_keeps_hosts _ _ _ Hget) as [Hsame Hne].
    destruct (respond wire _) as [r | msg | msg].
    + change (Client.__NO_RESPONSE =? Client.__RAW_RESPONSE) with false; cbv iota.
      destruct ((200 <=? status_code r) && (status_code r <? 300)).
      * simpl. intros [= <- _]. simpl. congruence.
      * destruct (Client.__RECOGNIZED_ERRORS (text r)) as [[] |]; simpl;
          try discriminate.
        intros [= <- _]. simpl. congruence.
    + destruct msg;
        (destruct (Cluster.remove_host _ _) as [? | []]; simpl; try discriminate;
         intros [= <- _]; simpl; congruence).
    + simpl. discriminate.
  - assert (He : e <> FrameExistsError).
    { unfold Cluster.get_host in Hget.
      destruct (_ =? _)%nat; [congruence |].
      destruct (nth_error _ _); congruence. }
    simpl. destruct e; try discriminate. congruence.
Qed.

(** X23. [ensure_frame] can be repeated.  When a first [ensure_frame] has
    returned and the server goes on to answer with success or with [frame
    already exists], a second [ensure_frame] for the same frame returns as
    well, and the pool still has the hosts it had. *)
Theorem ensure_frame_twice (self self1 : Client.t) (wire wire1 : list request)
    (frame : Frame.t) :
  ensure_frame self wire frame = (Ok tt, self1, wire1) ->
  (forall req, exists r,
      respond wire1 req = Answered r /\
      (200 <= status_code r < 300 \/ text r = "frame already exists" ++ nl)) ->
  fst (fst (ensure_frame self1 wire1 frame)) = Ok tt /\
  Cluster.hosts (Client.cluster (snd (fst (ensure_frame self1 wire1 frame)))) =
    Cluster.hosts (Client.cluster self1).
Proof.
  intros Hfirst Hserver.
  pose proof (ensure_frame_returned _ _ _ _ _ Hfirst) as Hne.
  destruct (get_host_nonempty _ Hne) as (uri & _ & Hget).
  unfold Client.ensure_frame, Client.create_frame, Client.__create_or_delete_frame.
  match goal with
  | |- context [Client.__http_request _ _ _ _ ?m ?p ?d _] =>
      destruct (Hserver (mk_request m (URI.normalize uri ++ p) d
                           (Client.__HEADERS version)))
        as (r & Hr & Hok)
  end.
  rewrite (http_request_answered version respond _ _ _ _ _ _ uri _ r Hget Hr).
  change (Client.__NO_RESPONSE =? Client.__RAW_RESPONSE) with false; cbv iota.
  destruct ((200 <=? status_code r) && (status_code r <? 300)) eqn:E2xx;
    [split; reflexivity |].
  destruct Hok as [H2xx | Htext].
  - rewrite (is_2xx_true r H2xx) in E2xx. discriminate.
  - rewrite Htext. split; reflexivity.
Qed.
End ClientBodies.

(** [query_needs_an_object] on a body that is an array. *)
Lemma query_needs_an_object_witness :
  fst (fst (Client.query "1.0" (answers (mk_response 200 "[]" (Some (JList []))))
              example_client [] example_query false)) = Raise TypeError \/
  fst (fst (Client.query "1.0" (answers (mk_response 200 "[]" (Some (JList []))))
              example_client [] example_query false)) = Raise AttributeError.
Proof.
  apply (query_needs_an_object "1.0" (answers (mk_response 200 "[]" (Some (JList []))))
           example_client [] example_query false
           (mk_response 200 "[]" (Some (JList []))) (JList [])).
  - discriminate.
  - intros req. reflexivity.
  - reflexivity.
  - intros kvs. discriminate.
Defined.

(** [ensure_frame_twice] on a server that answers every request with
    success. *)
Lemma ensure_frame_twice_witness :
  fst (fst (Client.ensure_frame "1.0" (answers (mk_response 200 "" None))
              (Client.mk (Cluster.mk [URI.init] 0) URI.init)
              [mk_request post
                 (URI.normalize URI.init ++ "/frame")
                 (Some
                    ("{" ++ quoted "db" ++ ": " ++ quoted "testdb" ++
                     ", " ++ quoted "frame" ++ ": " ++ quoted "test" ++
                     ", " ++ quoted "options" ++ ": {" ++ quoted "rowLabel" ++ ": " ++
                     quoted "id" ++ "}}"))
                 (Client.__HEADERS "1.0")]
              example_frame)) = Ok tt.
Proof.
  refine (proj1 (ensure_frame_twice "1.0" (answers (mk_response 200 "" None))
                   example_client _ [] _ example_frame _ _)).
  - reflexivity.
  - intros req. exists (mk_response 200 "" None). split; [reflexivity |].
    left. simpl. lia.
Defined.
